(** * ai-nutrition-app: credential hashing, data access and user handlers

    A shallow embedding of the TypeScript sources
    - [src/utils/password.ts]            (module [Password]),
    - [src/models/user-model.ts]         (module [UserModel]),
    - [src/models/meal-model.ts]         (module [MealModel]),
    - [src/controllers/user-controller.ts] (module [UserController]),
    - [src/routes/APIs/user-route.ts], [src/routes/index-route.ts], [src/app.ts]
      (module [Routing]).

    JavaScript strings are [string]; buffers are [list byte]; plain objects
    are finite maps from property names to values; [async] functions that may
    reject are functions into [outcome], threaded through the state of the
    relational store where they touch it. *)

From Stdlib Require Import ZArith NArith Lia List.
From Stdlib Require Import Strings.String Strings.Ascii Strings.Byte.
From stdpp Require Import base option list strings pretty gmap finite.

Local Open Scope string_scope.

(** ** Thrown values *)

(** A Prisma client error as the model layer reads it: [error.code] and
    [error.meta?.target].  [meta = None] is an error without [meta];
    [meta = Some None] has [meta] but no [target]. *)
Record prisma_error := PrismaError {
  code : string;
  meta : option (option (list string));
  prisma_message : string
}.

(** What the code throws: the error classes of [src/errors] that the models
    and handlers construct, the [TypeError] of the runtime, and the errors
    of the store, which pass through the models as they were raised. *)
Inductive exn :=
| NotFound (message : string)
| BadRequestError (message : string)
| TypeError (message : string)
| StoreError (e : prisma_error).

Inductive outcome (A : Type) :=
| Ok (a : A)
| Throw (e : exn).
Arguments Ok {A} a.
Arguments Throw {A} e.

(** ** Buffers and their hex encoding *)

Definition hex_digit (n : N) : ascii :=
  match n with
  | 0 => "0" | 1 => "1" | 2 => "2" | 3 => "3" | 4 => "4" | 5 => "5"
  | 6 => "6" | 7 => "7" | 8 => "8" | 9 => "9" | 10 => "a" | 11 => "b"
  | 12 => "c" | 13 => "d" | 14 => "e" | _ => "f"
  end%N%char.

(** [buf.toString('hex')]: two lower-case digits per byte. *)
Definition hex_of_byte (b : byte) : string :=
  String (hex_digit (Byte.to_N b / 16))
    (String (hex_digit (Byte.to_N b mod 16)) EmptyString).

Fixpoint toString_hex (buf : list byte) : string :=
  match buf with
  | [] => EmptyString
  | b :: rest => hex_of_byte b +:+ toString_hex rest
  end.

(** [s.split(sep)] for a one-character separator: every maximal run between
    separators, the empty string included. *)
Fixpoint split (sep : ascii) (s : string) : list string :=
  match s with
  | EmptyString => [EmptyString]
  | String c rest =>
      if Ascii.eqb c sep then EmptyString :: split sep rest
      else match split sep rest with
           | [] => [String c EmptyString]
           | h :: t => String c h :: t
           end
  end.

(** ** src/utils/password.ts *)

Module Password.
Section WithKdf.
(** [scrypt(password, salt, keylen)] of node:crypto, and
    [serverEnv.pepper]. *)
Variable scrypt : string -> string -> nat -> list byte.
Variable pepper : string.

(** [toHash]; [rnd] is the value of [randomBytes(8)] drawn by the call. *)
Definition toHash (rnd : list byte) (password : string) : string :=
  let salt := toString_hex rnd in
  let buf := scrypt (password +:+ pepper) salt 64 in
  toString_hex buf +:+ "." +:+ salt.

(** [compare].  The array pattern binds the first two components of the
    split; a stored value without a second component leaves [salt]
    undefined, which [scrypt] rejects with a [TypeError]. *)
Definition compare (storedPassword suppliedPassword : string) : outcome bool :=
  let parts := split "." storedPassword in
  let hashedPassword := parts !! 0%nat in
  match parts !! 1%nat with
  | None => Throw (TypeError "The salt argument must be of type string")
  | Some salt =>
      let buf := scrypt (suppliedPassword +:+ pepper) salt 64 in
      Ok (bool_decide (hashedPassword = Some (toString_hex buf)))
  end.
End WithKdf.
End Password.

(** ** Entities (prisma/schema.prisma) and the payload types of the models *)

Module User.
Record t := Build {
  id : string; email : string; name : string; phone : string;
  password : string; createdAt : Z
}.
End User.

Module CreateUserData.
Record t := Build {
  email : string; name : string; phone : string; password : string
}.
End CreateUserData.

Module UpdateUserData.
(** Every field optional: [None] is a property that is not there. *)
Record t := Build {
  email : option string; name : option string; phone : option string;
  password : option string
}.
End UpdateUserData.

(** The [data] of [prisma.user.update], [Prisma.UserUpdateInput]: any of
    the columns of [User].  [UserModel.update] spreads the object it is
    given and [UserController.update] gives it the request body as it came,
    so at run time the payload may name [id] or [createdAt] besides the
    four properties that [UpdateUserData] declares.  (An object with a
    property that is no column is refused by the client before it asks the
    store anything; such objects are not represented.) *)
Module UserUpdateInput.
Record t := Make {
  id : option string; email : option string; name : option string;
  phone : option string; password : option string; createdAt : option Z
}.

(** A payload of the declared type, as the object it is: its four
    properties and no other. *)
Definition of_data (data : UpdateUserData.t) : t :=
  Make None (UpdateUserData.email data) (UpdateUserData.name data)
    (UpdateUserData.phone data) (UpdateUserData.password data) None.
End UserUpdateInput.

Coercion UserUpdateInput.of_data : UpdateUserData.t >-> UserUpdateInput.t.

Module Meal.
Record t := Build {
  id : string; name : string; calories : Z; carbs : Z; protein : Z;
  fat : Z; createdAt : Z; planId : string
}.
End Meal.

Module CreateMealData.
Record t := Build {
  name : string; calories : Z; carbs : Z; protein : Z; fat : Z;
  planId : string
}.
End CreateMealData.

Module UpdateMealData.
Record t := Build {
  name : option string; calories : option Z; carbs : option Z;
  protein : option Z; fat : option Z
}.
End UpdateMealData.

(** The [where] clause of [prisma.user.findUnique]: one unique column. *)
Inductive user_where :=
| ById (id : string)
| ByEmail (email : string)
| ByPhone (phone : string).

(** ** Store-threading computations *)

Definition M (DB A : Type) : Type := DB -> outcome A * DB.

Definition ret {DB A} (a : A) : M DB A := fun db => (Ok a, db).
Definition throw {DB A} (e : exn) : M DB A := fun db => (Throw e, db).
Definition bind {DB A B} (m : M DB A) (k : A -> M DB B) : M DB B :=
  fun db =>
    match m db with
    | (Ok a, db') => k a db'
    | (Throw e, db') => (Throw e, db')
    end.
(** [try { m } catch (error) { h(error) }] *)
Definition try_catch {DB A} (m : M DB A) (h : exn -> M DB A) : M DB A :=
  fun db =>
    match m db with
    | (Ok a, db') => (Ok a, db')
    | (Throw e, db') => h e db'
    end.
Definition lift {DB A} (o : outcome A) : M DB A := fun db => (o, db).

Notation "'let!' x ':=' m 'in' k" := (bind m (fun x => k))
  (at level 10, x name, m at level 100, k at level 200).
Notation "'do!' m 'in' k" := (bind m (fun _ => k))
  (at level 10, m at level 100, k at level 200).

(** The Prisma delegates the models call, over a store state [DB]. *)
Module Prisma.
Record Client (DB : Type) := {
  user_create : CreateUserData.t -> M DB User.t;
  user_findUnique : user_where -> M DB (option User.t);
  user_update : string -> UserUpdateInput.t -> M DB User.t;
  user_delete : string -> M DB User.t;
  user_findMany : M DB (list User.t);
  meal_create : CreateMealData.t -> M DB Meal.t;
  meal_findUnique : string -> M DB (option Meal.t);
  meal_update : string -> UpdateMealData.t -> M DB Meal.t;
  meal_delete : string -> M DB Meal.t
}.
Arguments user_create {DB}.
Arguments user_findUnique {DB}.
Arguments user_update {DB}.
Arguments user_delete {DB}.
Arguments user_findMany {DB}.
Arguments meal_create {DB}.
Arguments meal_findUnique {DB}.
Arguments meal_update {DB}.
Arguments meal_delete {DB}.
End Prisma.

(** [error.code]: only the store's errors carry one. *)
Definition error_code (error : exn) : option string :=
  match error with
  | StoreError e => Some (code e)
  | _ => None
  end.

(** [error.meta?.target[0] || 'Field'].  Optional chaining guards [meta]
    only: with [meta] present and [target] missing the index throws. *)
Definition target_field (error : exn) : outcome string :=
  match error with
  | StoreError e =>
      match meta e with
      | None => Ok "Field"
      | Some None =>
          Throw (TypeError "Cannot read properties of undefined (reading '0')")
      | Some (Some []) => Ok "Field"
      | Some (Some (f :: _)) => Ok (if String.eqb f "" then "Field" else f)
      end
  | _ => Ok "Field"
  end.

(** ** src/models/user-model.ts *)

Module UserModel.
Section WithClient.
Context {DB : Type}.
Variable scrypt : string -> string -> nat -> list byte.
Variable pepper : string.
Variable prisma : Prisma.Client DB.

(** [handlePrismaError]: [Ok tt] is the return without a throw. *)
Definition handlePrismaError (error : exn) : outcome unit :=
  if bool_decide (error_code error = Some "P2025") then
    Throw (NotFound "User not found")
  else if bool_decide (error_code error = Some "P2002") then
    match target_field error with
    | Ok field => Throw (BadRequestError (field +:+ " is already in use"))
    | Throw e => Throw e
    end
  else Ok tt.

(** The body every [catch] of this class has:
    [UserModel.handlePrismaError(error); throw error]. *)
Definition catch_clause {A} (error : exn) : M DB A :=
  do! lift (handlePrismaError error) in throw error.

Definition create (rnd : list byte) (userData : CreateUserData.t) : M DB User.t :=
  try_catch
    (let hashedPassword :=
       Password.toHash scrypt pepper rnd (CreateUserData.password userData) in
     Prisma.user_create prisma
       (CreateUserData.Build
          (CreateUserData.email userData) (CreateUserData.name userData)
          (CreateUserData.phone userData) hashedPassword))
    catch_clause.

Definition findById (id : string) : M DB User.t :=
  let! user := Prisma.user_findUnique prisma (ById id) in
  match user with
  | None => throw (NotFound "User not found")
  | Some user => ret user
  end.

Definition findByEmail (email : string) : M DB (option User.t) :=
  Prisma.user_findUnique prisma (ByEmail email).

Definition findByPhone (phone : string) : M DB (option User.t) :=
  Prisma.user_findUnique prisma (ByPhone phone).

(** [if (updateData.password)]: a string is truthy unless it is empty,
    a missing property is not. *)
Definition truthy (s : option string) : bool :=
  match s with
  | Some s => negb (String.eqb s "")
  | None => false
  end.

(** The object handed to [prisma.user.update] as [data]. *)
Definition updateData (rnd : list byte) (data : UserUpdateInput.t) : UserUpdateInput.t :=
  if truthy (UserUpdateInput.password data) then
    UserUpdateInput.Make (UserUpdateInput.id data)
      (UserUpdateInput.email data) (UserUpdateInput.name data)
      (UserUpdateInput.phone data)
      (Password.toHash scrypt pepper rnd <$> UserUpdateInput.password data)
      (UserUpdateInput.createdAt data)
  else data.

Definition update (rnd : list byte) (id : string) (data : UserUpdateInput.t) : M DB User.t :=
  try_catch (Prisma.user_update prisma id (updateData rnd data)) catch_clause.

Definition delete (id : string) : M DB unit :=
  try_catch (do! Prisma.user_delete prisma id in ret tt) catch_clause.

Definition findAll : M DB (list User.t) := Prisma.user_findMany prisma.

(** Modelled from the spec: [UserModel.login], which the controller calls
    and the model's tests exercise, is not defined by user-model.ts.  It
    looks the user up by email and fails with the invalid-credentials
    error when there is none or when the password does not verify; the
    tests fix the error as [BadRequestError('Invalid credentials')], the
    lookup as [findUnique({ where: { email } })] and the verification as
    [Password.compare(user.password, password)]. *)
Definition login (email password : string) : M DB User.t :=
  let! user := Prisma.user_findUnique prisma (ByEmail email) in
  match user with
  | None => throw (BadRequestError "Invalid credentials")
  | Some user =>
      let! matches := lift (Password.compare scrypt pepper (User.password user) password) in
      if matches : bool then ret user
      else throw (BadRequestError "Invalid credentials")
  end.
End WithClient.
End UserModel.

(** ** src/models/meal-model.ts *)

Module MealModel.
Section WithClient.
Context {DB : Type}.
Variable prisma : Prisma.Client DB.

Definition handlePrismaError (error : exn) : outcome unit :=
  if bool_decide (error_code error = Some "P2025") then
    Throw (NotFound "Meal not found")
  else Ok tt.

Definition catch_clause {A} (error : exn) : M DB A :=
  do! lift (handlePrismaError error) in throw error.

Definition create (mealData : CreateMealData.t) : M DB Meal.t :=
  try_catch (Prisma.meal_create prisma mealData) catch_clause.

Definition findById (id : string) : M DB Meal.t :=
  let! meal := Prisma.meal_findUnique prisma id in
  match meal with
  | None => throw (NotFound "Meal not found")
  | Some meal => ret meal
  end.

Definition updateById (id : string) (mealData : UpdateMealData.t) : M DB Meal.t :=
  try_catch (Prisma.meal_update prisma id mealData) catch_clause.

Definition deleteById (id : string) : M DB unit :=
  try_catch (do! Prisma.meal_delete prisma id in ret tt) catch_clause.
End WithClient.
End MealModel.

(** ** src/controllers/user-controller.ts *)

(** Property values of the objects a handler sends. *)
Inductive value :=
| Str (s : string)
| Date (t : Z).

(** What [res.send] is given: an object, an array of objects, or nothing. *)
Inductive payload :=
| Json (o : gmap string value)
| JsonArray (l : list (gmap string value))
| NoBody.

Record response := Response { status : nat; body : payload }.

(** A [User] row as the object the Prisma client resolves to. *)
Definition user_object (user : User.t) : gmap string value :=
  <["id" := Str (User.id user)]>
  (<["email" := Str (User.email user)]>
  (<["name" := Str (User.name user)]>
  (<["phone" := Str (User.phone user)]>
  (<["password" := Str (User.password user)]>
  (<["createdAt" := Date (User.createdAt user)]> ∅))))).

(** [const { password, ...rest } = user]: the rest of an object pattern
    holds every own property but the ones the pattern names. *)
Definition rest_without_password (user : User.t) : gmap string value :=
  delete "password" (user_object user).

Module UserController.
Section WithModel.
Context {DB : Type}.
Variable scrypt : string -> string -> nat -> list byte.
Variable pepper : string.
Variable prisma : Prisma.Client DB.
(** [UserModel.login], which user-model.ts does not define. *)
Variable UserModel_login : string -> string -> M DB User.t.

Definition register (rnd : list byte) (body : CreateUserData.t) : M DB response :=
  let! existingUser := UserModel.findByEmail prisma (CreateUserData.email body) in
  if existingUser is Some _ then throw (BadRequestError "Email already in use")
  else
    let! user := UserModel.create scrypt pepper prisma rnd
                   (CreateUserData.Build
                      (CreateUserData.email body) (CreateUserData.name body)
                      (CreateUserData.phone body) (CreateUserData.password body)) in
    let userResponse := rest_without_password user in
    ret (Response 201 (Json userResponse)).

Definition login (email password : string) : M DB response :=
  let! user := UserModel_login email password in
  let userResponse := rest_without_password user in
  ret (Response 200 (Json userResponse)).

Definition getById (id : string) : M DB response :=
  let! user := UserModel.findById prisma id in
  let userResponse := rest_without_password user in
  ret (Response 200 (Json userResponse)).

Definition getAll : M DB response :=
  let! users := UserModel.findAll prisma in
  let usersResponse := map rest_without_password users in
  ret (Response 200 (JsonArray usersResponse)).

Definition update (rnd : list byte) (id : string) (updateData : UserUpdateInput.t)
  : M DB response :=
  do! UserModel.findById prisma id in
  let! updatedUser := UserModel.update scrypt pepper prisma rnd id updateData in
  let userResponse := rest_without_password updatedUser in
  ret (Response 200 (Json userResponse)).

Definition delete (id : string) : M DB response :=
  do! UserModel.findById prisma id in
  do! UserModel.delete prisma id in
  ret (Response 204 NoBody).

(** The requests the handlers serve, with what each reads from [req]
    and the random bytes a hashing call draws. *)
Inductive request :=
| Register (rnd : list byte) (body : CreateUserData.t)
| Login (email password : string)
| GetById (id : string)
| GetAll
| Update (rnd : list byte) (id : string) (updateData : UserUpdateInput.t)
| Delete (id : string).

Definition handle (req : request) : M DB response :=
  match req with
  | Register rnd body => register rnd body
  | Login email password => login email password
  | GetById id => getById id
  | GetAll => getAll
  | Update rnd id updateData => update rnd id updateData
  | Delete id => delete id
  end.
End WithModel.
End UserController.

(** A body has no [password] property: the object itself, or every element
    of the array. *)
Definition no_password (b : payload) : Prop :=
  match b with
  | Json o => o !! "password" = None
  | JsonArray l => Forall (fun o : gmap string value => o !! "password" = None) l
  | NoBody => True
  end.

(** ** The client singleton (user-model.ts, prisma-client/prima-client.ts)

    [PrismaClientSingleton]: the static field [instance], unset until the
    first call of [getInstance], and the clients constructed so far; a
    client is known by the order of its construction. *)

Module PrismaClientSingleton.
Record state := State {
  instance : option N;
  constructed : N
}.

Definition initial : state := State None 0.

(** [if (!instance) instance = new PrismaClient(); return instance] *)
Definition getInstance (s : state) : N * state :=
  match instance s with
  | Some client => (client, s)
  | None =>
      let client := constructed s in
      (client, State (Some client) (N.succ (constructed s)))
  end.

(** The clients that [calls] successive calls return, and the state left. *)
Fixpoint getInstances (calls : nat) (s : state) : list N * state :=
  match calls with
  | O => ([], s)
  | S calls' =>
      let (client, s1) := getInstance s in
      let (clients, s2) := getInstances calls' s1 in
      (client :: clients, s2)
  end.
End PrismaClientSingleton.

(** ** A reference store for prisma/schema.prisma

    The tables [User] and [Meal] in memory, with the constraints the schema
    declares: [User.id], [User.email] and [User.phone] unique, [Meal.planId]
    a foreign key.  A violated unique constraint rejects with code [P2002]
    and the column in [meta.target]; an update or delete of a missing row
    rejects with [P2025]; a dangling [planId] rejects with [P2003]. *)

Module MemStore.
Record db := Db {
  users : list User.t;
  meals : list Meal.t;
  plans : list string;        (* ids of the MealPlan rows *)
  next_id : N;                (* source of the [uuid()] defaults *)
  clock : Z                   (* [now()] *)
}.

Definition uuid (n : N) : string := "id-" +:+ pretty n.

Definition user_matches (w : user_where) (u : User.t) : bool :=
  match w with
  | ById id => String.eqb (User.id u) id
  | ByEmail email => String.eqb (User.email u) email
  | ByPhone phone => String.eqb (User.phone u) phone
  end.

Definition find_user (w : user_where) (d : db) : option User.t :=
  List.find (user_matches w) (users d).

Definition unique_violation (column : string) : exn :=
  StoreError (PrismaError "P2002" (Some (Some [column]))
                "Unique constraint failed").
Definition record_not_found : exn :=
  StoreError (PrismaError "P2025" (Some None) "Record not found").
Definition foreign_key_violation : exn :=
  StoreError (PrismaError "P2003" (Some None) "Foreign key constraint failed").

Definition with_users (d : db) (us : list User.t) : db :=
  Db us (meals d) (plans d) (next_id d) (clock d).
Definition with_meals (d : db) (ms : list Meal.t) : db :=
  Db (users d) ms (plans d) (next_id d) (clock d).
Definition tick (d : db) : db :=
  Db (users d) (meals d) (plans d) (N.succ (next_id d)) (clock d + 1).

(** The first unique column of [u] that a row of [others] already holds. *)
Definition taken_column (others : list User.t) (u : User.t) : option string :=
  if existsb (user_matches (ById (User.id u))) others then Some "id"
  else if existsb (user_matches (ByEmail (User.email u))) others then Some "email"
  else if existsb (user_matches (ByPhone (User.phone u))) others then Some "phone"
  else None.

Definition user_create (data : CreateUserData.t) : M db User.t := fun d =>
  let u := User.Build (uuid (next_id d)) (CreateUserData.email data)
             (CreateUserData.name data) (CreateUserData.phone data)
             (CreateUserData.password data) (clock d) in
  match taken_column (users d) u with
  | Some column => (Throw (unique_violation column), d)
  | None => (Ok u, tick (with_users d (users d ++ [u])))
  end.

Definition user_findUnique (w : user_where) : M db (option User.t) := fun d =>
  (Ok (find_user w d), d).

Definition apply_update (data : UserUpdateInput.t) (u : User.t) : User.t :=
  User.Build
    (default (User.id u) (UserUpdateInput.id data))
    (default (User.email u) (UserUpdateInput.email data))
    (default (User.name u) (UserUpdateInput.name data))
    (default (User.phone u) (UserUpdateInput.phone data))
    (default (User.password u) (UserUpdateInput.password data))
    (default (User.createdAt u) (UserUpdateInput.createdAt data)).

Definition other_users (id : string) (d : db) : list User.t :=
  List.filter (fun u => negb (user_matches (ById id) u)) (users d).

Definition user_update (id : string) (data : UserUpdateInput.t) : M db User.t := fun d =>
  match find_user (ById id) d with
  | None => (Throw record_not_found, d)
  | Some u =>
      let u' := apply_update data u in
      match taken_column (other_users id d) u' with
      | Some column => (Throw (unique_violation column), d)
      | None =>
          (Ok u', with_users d
                    (map (fun r => if user_matches (ById id) r then u' else r)
                       (users d)))
      end
  end.

Definition user_delete (id : string) : M db User.t := fun d =>
  match find_user (ById id) d with
  | None => (Throw record_not_found, d)
  | Some u => (Ok u, with_users d (other_users id d))
  end.

Definition user_findMany : M db (list User.t) := fun d => (Ok (users d), d).

Definition meal_has_id (id : string) (m : Meal.t) : bool :=
  String.eqb (Meal.id m) id.

Definition find_meal (id : string) (d : db) : option Meal.t :=
  List.find (meal_has_id id) (meals d).

Definition meal_create (data : CreateMealData.t) : M db Meal.t := fun d =>
  let m := Meal.Build (uuid (next_id d)) (CreateMealData.name data)
             (CreateMealData.calories data) (CreateMealData.carbs data)
             (CreateMealData.protein data) (CreateMealData.fat data)
             (clock d) (CreateMealData.planId data) in
  if negb (existsb (String.eqb (CreateMealData.planId data)) (plans d)) then
    (Throw foreign_key_violation, d)
  else if existsb (meal_has_id (Meal.id m)) (meals d) then
    (Throw (unique_violation "id"), d)
  else (Ok m, tick (with_meals d (meals d ++ [m]))).

Definition meal_findUnique (id : string) : M db (option Meal.t) := fun d =>
  (Ok (find_meal id d), d).

Definition apply_meal_update (data : UpdateMealData.t) (m : Meal.t) : Meal.t :=
  Meal.Build (Meal.id m)
    (default (Meal.name m) (UpdateMealData.name data))
    (default (Meal.calories m) (UpdateMealData.calories data))
    (default (Meal.carbs m) (UpdateMealData.carbs data))
    (default (Meal.protein m) (UpdateMealData.protein data))
    (default (Meal.fat m) (UpdateMealData.fat data))
    (Meal.createdAt m) (Meal.planId m).

Definition meal_update (id : string) (data : UpdateMealData.t) : M db Meal.t := fun d =>
  match find_meal id d with
  | None => (Throw record_not_found, d)
  | Some m =>
      let m' := apply_meal_update data m in
      (Ok m', with_meals d
                (map (fun r => if meal_has_id id r then m' else r) (meals d)))
  end.

Definition meal_delete (id : string) : M db Meal.t := fun d =>
  match find_meal id d with
  | None => (Throw record_not_found, d)
  | Some m =>
      (Ok m, with_meals d
               (List.filter (fun r => negb (meal_has_id id r)) (meals d)))
  end.

Definition prisma : Prisma.Client db := {|
  Prisma.user_create := user_create;
  Prisma.user_findUnique := user_findUnique;
  Prisma.user_update := user_update;
  Prisma.user_delete := user_delete;
  Prisma.user_findMany := user_findMany;
  Prisma.meal_create := meal_create;
  Prisma.meal_findUnique := meal_findUnique;
  Prisma.meal_update := meal_update;
  Prisma.meal_delete := meal_delete
|}.
End MemStore.

(** ** src/app.ts, src/routes/index-route.ts, src/routes/APIs/user-route.ts *)

Module Routing.
(** The request methods the routes are told apart by.  OPTIONS, which the
    router answers itself, is not among them. *)
Inductive method := GET | POST | PUT | DELETE | HEAD.

(** The handler chains of the application: the health probe and the
    static methods of [UserController]. *)
Inductive target :=
| Healthz
| UserRegister | UserLogin | UserGetById | UserGetAll | UserUpdate | UserDelete.

Inductive segment :=
| Lit (s : string)
| Param (name : string).

(** A layer of a router's stack: [router.METHOD(path, ...)] or
    [router.use(prefix, subrouter)]. *)
#[warning="-register-all"]
Inductive layer :=
| Route (m : method) (path : list segment) (h : target)
| Use (prefix : list string) (router : list layer).

Definition method_eqb (a b : method) : bool :=
  match a, b with
  | GET, GET | POST, POST | PUT, PUT | DELETE, DELETE | HEAD, HEAD => true
  | _, _ => false
  end.

(** [Route.prototype._handles_method] for a route registered under one
    method: a HEAD request is taken by a GET route that has no HEAD
    handler of its own. *)
Definition handles_method (registered m : method) : bool :=
  match m, registered with
  | HEAD, HEAD => true
  | HEAD, _ => method_eqb GET registered
  | _, _ => method_eqb m registered
  end.

(** Express compares path text without regard to letter case. *)
Definition lower (c : ascii) : ascii :=
  let n := N_of_ascii c in
  if ((65 <=? n) && (n <=? 90))%N then ascii_of_N (n + 32) else c.
Fixpoint lowercase (s : string) : string :=
  match s with
  | EmptyString => EmptyString
  | String c r => String (lower c) (lowercase r)
  end.
Definition same_text (a b : string) : bool :=
  String.eqb (lowercase a) (lowercase b).

(** A trailing slash does not count. *)
Fixpoint drop_last_empty (l : list string) : list string :=
  match l with
  | [] => []
  | [s] => if String.eqb s "" then [] else [s]
  | s :: l' => s :: drop_last_empty l'
  end.

(** The segments of a request path (the part of the URL before any [?])
    in plain form: a slash, then segments that are not empty with one slash
    between them, then at most one trailing slash.  What the router makes
    of a path with a doubled slash depends on where the slash stands and on
    the version of the router; such a path has no segments here, and
    [serve] leaves it open. *)
Definition segments (path : string) : option (list string) :=
  match split "/" path with
  | EmptyString :: (_ :: _) as rest =>
      let segs := drop_last_empty rest in
      if forallb (fun s => negb (String.eqb s "")) segs then Some segs else None
  | _ => None
  end.

(** [decodeURIComponent], which the router applies to the text of every
    parameter, as far as it succeeds or throws.  [escapes] reads each
    [%XX] as an octet; [None] is a character that stands for itself, and a
    [%] without two hex digits after it makes the decoding throw. *)
Definition hex_digit_value (c : ascii) : option N :=
  let n := N_of_ascii c in
  if ((48 <=? n) && (n <=? 57))%N then Some (n - 48)%N
  else if ((65 <=? n) && (n <=? 70))%N then Some (n - 55)%N
  else if ((97 <=? n) && (n <=? 102))%N then Some (n - 87)%N
  else None.

Fixpoint escapes (s : string) : option (list (option N)) :=
  match s with
  | EmptyString => Some []
  | String c rest =>
      if Ascii.eqb c "%" then
        match rest with
        | String h (String l rest') =>
            match hex_digit_value h, hex_digit_value l, escapes rest' with
            | Some a, Some b, Some us => Some (Some (16 * a + b)%N :: us)
            | _, _, _ => None
            end
        | _ => None
        end
      else
        match escapes rest with
        | Some us => Some (None :: us)
        | None => None
        end
  end.

(** The escaped octets have to be well-formed UTF-8: [due] octets of the
    current sequence are still to come, the next one within [lo..hi]. *)
Fixpoint well_formed (due : nat) (lo hi : N) (us : list (option N)) : bool :=
  match us with
  | [] => Nat.eqb due 0
  | None :: us' => Nat.eqb due 0 && well_formed 0 128 191 us'
  | Some b :: us' =>
      match due with
      | O =>
          if (b <? 128)%N then well_formed 0 128 191 us'
          else if ((194 <=? b) && (b <=? 223))%N then well_formed 1 128 191 us'
          else if (b =? 224)%N then well_formed 2 160 191 us'
          else if (((225 <=? b) && (b <=? 236)) || ((238 <=? b) && (b <=? 239)))%N
               then well_formed 2 128 191 us'
          else if (b =? 237)%N then well_formed 2 128 159 us'
          else if (b =? 240)%N then well_formed 3 144 191 us'
          else if ((241 <=? b) && (b <=? 243))%N then well_formed 3 128 191 us'
          else if (b =? 244)%N then well_formed 3 128 143 us'
          else false
      | S due' => ((lo <=? b) && (b <=? hi))%N && well_formed due' 128 191 us'
      end
  end.

Definition decodable (s : string) : bool :=
  match escapes s with
  | Some us => well_formed 0 128 191 us
  | None => false
  end.

Definition segment_matches (p : segment) (s : string) : bool :=
  match p with
  | Lit l => same_text l s
  | Param _ => true
  end.

(** The text of every parameter of a matched route can be decoded. *)
Fixpoint params_decodable (pattern : list segment) (path : list string) : bool :=
  match pattern, path with
  | Param _ :: pattern', s :: path' => decodable s && params_decodable pattern' path'
  | Lit _ :: pattern', _ :: path' => params_decodable pattern' path'
  | _, _ => true
  end.

(** A route matches the whole of what is left of the path. *)
Fixpoint route_matches (pattern : list segment) (path : list string) : bool :=
  match pattern, path with
  | [], [] => true
  | p :: pattern', s :: path' => segment_matches p s && route_matches pattern' path'
  | _, _ => false
  end.

(** [use] matches a prefix and hands the rest to the mounted router. *)
Fixpoint strip_prefix (prefix path : list string) : option (list string) :=
  match prefix, path with
  | [], _ => Some path
  | p :: prefix', s :: path' =>
      if same_text p s then strip_prefix prefix' path' else None
  | _ :: _, [] => None
  end.

(** What a layer that takes a request does with it: it runs a handler
    chain, or fails decoding a parameter, which ends the dispatch with the
    error before any validator or handler has run. *)
Inductive taken :=
| Runs (h : target)
| DecodeFails.

(** The first layer that takes the request settles it; a mounted router
    none of whose layers takes it passes the request on.  A route whose
    path matches decodes its parameters before it looks at the method. *)
Fixpoint dispatch_layer (l : layer) (m : method) (path : list string) : option taken :=
  match l with
  | Route m' pattern h =>
      if route_matches pattern path then
        if params_decodable pattern path then
          if handles_method m' m then Some (Runs h) else None
        else Some DecodeFails
      else None
  | Use prefix router =>
      match strip_prefix prefix path with
      | None => None
      | Some rest =>
          (fix first (ls : list layer) : option taken :=
             match ls with
             | [] => None
             | l' :: ls' =>
                 match dispatch_layer l' m rest with
                 | Some t => Some t
                 | None => first ls'
                 end
             end) router
      end
  end.

(** The handler chains mounted anywhere under a layer. *)
Fixpoint targets (l : layer) : list target :=
  match l with
  | Route _ _ h => [h]
  | Use _ router =>
      (fix all (ls : list layer) : list target :=
         match ls with
         | [] => []
         | l' :: ls' => (targets l' ++ all ls')%list
         end) router
  end.

Definition userRouter : list layer :=
  [ Route POST [] UserRegister;
    Route GET [] UserGetAll;
    Route GET [Param "id"] UserGetById;
    Route PUT [Param "id"] UserUpdate;
    Route DELETE [Param "id"] UserDelete ].

Definition indexRouter : list layer := [ Use ["users"] userRouter ].

(** The stack of [app] above its last two layers. *)
Definition app : list layer :=
  [ Route GET [Lit "healthz"] Healthz; Use ["api"; "v1"] indexRouter ].

(** Where a request ends: at a handler chain; at the layer below the
    routers, which passes [new NotFound()] to the error handler; or at the
    error of a parameter that cannot be decoded.  [NotPlain] is a path that
    is not in plain form, of which nothing is said. *)
Inductive served :=
| Handler (h : target)
| Unmatched
| MalformedParam
| NotPlain.

Definition serve (m : method) (path : string) : served :=
  match segments path with
  | None => NotPlain
  | Some segs =>
      match dispatch_layer (Use [] app) m segs with
      | Some (Runs h) => Handler h
      | Some DecodeFails => MalformedParam
      | None => Unmatched
      end
  end.
End Routing.

(** ** Bytes are finitely many *)

Definition byte_of_bits := Byte.of_bits.

#[global] Instance byte_eq_dec : EqDecision byte := Byte.byte_eq_dec.

#[global] Instance byte_finite : Finite byte.
Proof.
  refine (bijective_finite byte_of_bits).
  - intros x y H. rewrite <- (Byte.to_bits_of_bits x), <- (Byte.to_bits_of_bits y).
    unfold byte_of_bits in H. now rewrite H.
  - intros b. exists (Byte.to_bits b). apply Byte.of_bits_to_bits.
Defined.


(** ** Vocabulary of the statements *)

(** [c] occurs in [s]. *)
Fixpoint occurs (c : ascii) (s : string) : bool :=
  match s with
  | EmptyString => false
  | String d rest => Ascii.eqb d c || occurs c rest
  end.

Definition is_hex_char (c : ascii) : bool :=
  let n := N_of_ascii c in
  (((48 <=? n) && (n <=? 57)) || ((97 <=? n) && (n <=? 102)))%N.

Fixpoint all_chars (P : ascii -> bool) (s : string) : bool :=
  match s with
  | EmptyString => true
  | String c rest => P c && all_chars P rest
  end.

(** Reading a byte back from its two digits. *)
Definition hex_value (c : ascii) : N :=
  let n := N_of_ascii c in
  (if n <? 58 then n - 48 else n - 87)%N.

Definition byte_of_hex (s : string) : option byte :=
  match s with
  | String h (String l EmptyString) => Byte.of_N (16 * hex_value h + hex_value l)
  | _ => None
  end.

(** The property of [scrypt] the shape of a digest rests on: the derived
    key has the length asked for. *)
Definition derives_keylen (scrypt : string -> string -> nat -> list byte) : Prop :=
  forall password salt keylen, length (scrypt password salt keylen) = keylen.

(** A derivation with the output length of [scrypt], to run the models on
    sample data: the bytes of password and salt, cut or zero-padded. *)
Definition sample_kdf (password salt : string) (keylen : nat) : list byte :=
  take keylen (list_byte_of_string (password +:+ salt) ++ repeat x00 keylen).

(** [error.meta] as far as the models read it. *)
Definition error_meta (error : exn) : option (option (list string)) :=
  match error with
  | StoreError e => meta e
  | _ => None
  end.

(** The field a uniqueness violation with this [meta.target] is reported
    for: its first element, or [Field] when there is none or it is empty. *)
Definition named_field (target : list string) : string :=
  match target with
  | field :: _ => if String.eqb field "" then "Field" else field
  | [] => "Field"
  end.

(** The failure translation in the words of the design: [r] is what the
    caller of a [UserModel] write sees when the store raised [e].  For the
    code P2002 it tells apart the errors without [meta], those whose [meta]
    has a [target], and those whose [meta] has none, on which the
    translation itself fails. *)
Definition user_translation (e r : exn) : Prop :=
  (error_code e = Some "P2025" -> r = NotFound "User not found")
  /\ (error_code e = Some "P2002" ->
      (error_meta e = None -> r = BadRequestError "Field is already in use")
      /\ (forall target, error_meta e = Some (Some target) ->
            r = BadRequestError (named_field target +:+ " is already in use"))
      /\ (error_meta e = Some None -> exists message, r = TypeError message))
  /\ (error_code e <> Some "P2025" -> error_code e <> Some "P2002" -> r = e).


(** The [data] that [UserModel.create] hands to the store. *)
Definition hashed_data (scrypt : string -> string -> nat -> list byte)
    (pepper : string) (rnd : list byte) (userData : CreateUserData.t)
  : CreateUserData.t :=
  CreateUserData.Build
    (CreateUserData.email userData) (CreateUserData.name userData)
    (CreateUserData.phone userData)
    (Password.toHash scrypt pepper rnd (CreateUserData.password userData)).

(** The constraints of the schema as properties of a store state: the
    unique columns of [User] hold no value twice, and every [Meal] refers
    to a [MealPlan] that is there. *)
Definition unique_users (d : MemStore.db) : Prop :=
  NoDup (map User.id (MemStore.users d))
  /\ NoDup (map User.email (MemStore.users d))
  /\ NoDup (map User.phone (MemStore.users d)).

Definition meals_reference_plans (d : MemStore.db) : Prop :=
  forall meal, In meal (MemStore.meals d) -> In (Meal.planId meal) (MemStore.plans d).

(** [o] is the representation of [user] a handler sends: the five public
    properties of the row with its values, and no other property. *)
Definition represents (o : gmap string value) (user : User.t) : Prop :=
  o !! "id" = Some (Str (User.id user))
  /\ o !! "email" = Some (Str (User.email user))
  /\ o !! "name" = Some (Str (User.name user))
  /\ o !! "phone" = Some (Str (User.phone user))
  /\ o !! "createdAt" = Some (Date (User.createdAt user))
  /\ forall k, ~ In k ["id"; "email"; "name"; "phone"; "createdAt"] -> o !! k = None.

(** A client every call of which rejects with [error], as a test double
    set up with [mockRejectedValue(error)] does. *)
Definition rejecting (error : exn) : Prisma.Client unit := {|
  Prisma.user_create := fun _ => throw error;
  Prisma.user_findUnique := fun _ => throw error;
  Prisma.user_update := fun _ _ => throw error;
  Prisma.user_delete := fun _ => throw error;
  Prisma.user_findMany := throw error;
  Prisma.meal_create := fun _ => throw error;
  Prisma.meal_findUnique := fun _ => throw error;
  Prisma.meal_update := fun _ _ => throw error;
  Prisma.meal_delete := fun _ => throw error
|}.

(** A client set up answer by answer, as a test double is with
    [mockResolvedValue] and [mockRejectedValue]: what [user.findUnique]
    resolves to for a lookup by email and for a lookup by id or phone, and
    how [user.create] settles.  The calls left open reject. *)
Definition stubbed (by_email by_other : option User.t) (created : outcome User.t)
  : Prisma.Client unit := {|
  Prisma.user_create := fun _ => lift created;
  Prisma.user_findUnique := fun w =>
    match w with
    | ByEmail _ => ret by_email
    | ById _ | ByPhone _ => ret by_other
    end;
  Prisma.user_update := fun _ _ => throw (TypeError "not set up");
  Prisma.user_delete := fun _ => throw (TypeError "not set up");
  Prisma.user_findMany := throw (TypeError "not set up");
  Prisma.meal_create := fun _ => throw (TypeError "not set up");
  Prisma.meal_findUnique := fun _ => throw (TypeError "not set up");
  Prisma.meal_update := fun _ _ => throw (TypeError "not set up");
  Prisma.meal_delete := fun _ => throw (TypeError "not set up")
|}.

(** Sample data: one registered user, one meal plan with one meal. *)
Definition sample_rnd : list byte := [x01; x23; x45; x67; x89; xab; xcd; xef].

Definition alice : User.t :=
  User.Build "id-0" "a@b.com" "A" "1"
    (Password.toHash sample_kdf "pepper" sample_rnd "password1") 0.

Definition salad : Meal.t :=
  Meal.Build "id-1" "Chicken Salad" 350 20 30 15 1 "plan123".

Definition sample_db : MemStore.db :=
  MemStore.Db [alice] [salad] ["plan123"] 2 2.

(** * Properties *)

(** ** Hex encoding and splitting *)

Lemma hex_digit_is_hex (n : N) : is_hex_char (hex_digit n) = true.
Proof.
  destruct n as [|p]; [reflexivity|].
  do 4 (try destruct p as [p|p|]); reflexivity.
Qed.

Lemma is_hex_char_not_dot (c : ascii) : is_hex_char c = true -> Ascii.eqb c "." = false.
Proof.
  intros H. destruct (Ascii.eqb_spec c "."%char) as [->|]; [discriminate H|reflexivity].
Qed.

Lemma all_chars_app (P : ascii -> bool) (a b : string) :
  all_chars P (a +:+ b) = all_chars P a && all_chars P b.
Proof.
  induction a as [|c a IH]; simpl; [reflexivity|].
  rewrite IH. apply andb_assoc.
Qed.

Lemma toString_hex_all_hex (buf : list byte) :
  all_chars is_hex_char (toString_hex buf) = true.
Proof.
  induction buf as [|b buf IH]; simpl; [reflexivity|].
  rewrite !hex_digit_is_hex. exact IH.
Qed.

Lemma all_hex_no_dot (s : string) :
  all_chars is_hex_char s = true -> occurs "." s = false.
Proof.
  induction s as [|c s IH]; simpl; [reflexivity|].
  intros [Hc Hs]%andb_prop.
  rewrite (is_hex_char_not_dot c Hc). simpl. auto.
Qed.

Lemma toString_hex_no_dot (buf : list byte) : occurs "." (toString_hex buf) = false.
Proof. apply all_hex_no_dot, toString_hex_all_hex. Qed.

Lemma string_length_app (a b : string) :
  String.length (a +:+ b) = String.length a + String.length b.
Proof. induction a as [|c a IH]; simpl; [reflexivity|]. now rewrite IH. Qed.

Lemma toString_hex_length (buf : list byte) :
  String.length (toString_hex buf) = 2 * length buf.
Proof.
  induction buf as [|b buf IH]; [reflexivity|].
  change (toString_hex (b :: buf)) with (hex_of_byte b +:+ toString_hex buf).
  rewrite string_length_app, IH. simpl. lia.
Qed.

(** A component without the separator is the first one the split yields. *)
Lemma split_app_sep (sep : ascii) (a b : string) :
  occurs sep a = false ->
  split sep (a +:+ String sep b) = a :: split sep b.
Proof.
  induction a as [|c a IH]; simpl.
  - intros _. now rewrite Ascii.eqb_refl.
  - intros [Hc Ha]%orb_false_elim. rewrite Hc, (IH Ha). reflexivity.
Qed.

Lemma split_no_sep (sep : ascii) (s : string) :
  occurs sep s = false -> split sep s = [s].
Proof.
  induction s as [|c s IH]; simpl; [reflexivity|].
  intros [Hc Hs]%orb_false_elim. rewrite Hc, (IH Hs). reflexivity.
Qed.

(** The two digits determine the byte. *)
Lemma byte_of_hex_of_byte (b : byte) : byte_of_hex (hex_of_byte b) = Some b.
Proof. destruct b; reflexivity. Qed.

Lemma hex_of_byte_inj (a b : byte) : hex_of_byte a = hex_of_byte b -> a = b.
Proof.
  intros H. apply (f_equal byte_of_hex) in H.
  rewrite !byte_of_hex_of_byte in H. congruence.
Qed.

Lemma toString_hex_inj (a b : list byte) : toString_hex a = toString_hex b -> a = b.
Proof.
  revert b. induction a as [|x a IH]; intros [|y b]; simpl; try discriminate; [reflexivity|].
  intros H. injection H as H1 H2 H3.
  assert (x = y) as ->.
  { apply hex_of_byte_inj. unfold hex_of_byte. now rewrite H1, H2. }
  f_equal. now apply IH.
Qed.


(** ** Password: digests and their verification *)

Section PasswordProperties.
Variable scrypt : string -> string -> nat -> list byte.
Variable pepper : string.

Local Abbreviation toHash := (Password.toHash scrypt pepper).
Local Abbreviation compare := (Password.compare scrypt pepper).

(** The split of a digest is its two components, whatever was derived. *)
Lemma split_toHash (rnd : list byte) (p : string) :
  split "." (toHash rnd p)
  = [toString_hex (scrypt (p +:+ pepper) (toString_hex rnd) 64); toString_hex rnd].
Proof.
  unfold Password.toHash.
  change ("." +:+ toString_hex rnd) with (String "." (toString_hex rnd)).
  rewrite split_app_sep by apply toString_hex_no_dot.
  rewrite split_no_sep by apply toString_hex_no_dot.
  reflexivity.
Qed.

(** Verification recomputes the derivation under the stored salt and
    compares the derived bytes. *)
Lemma compare_toHash (rnd : list byte) (p p' : string) :
  compare (toHash rnd p) p'
  = Ok (bool_decide (scrypt (p +:+ pepper) (toString_hex rnd) 64
                     = scrypt (p' +:+ pepper) (toString_hex rnd) 64)).
Proof.
  unfold Password.compare. rewrite split_toHash. simpl.
  f_equal. apply bool_decide_ext. split.
  - intros [= H]. now apply toString_hex_inj.
  - intros ->. reflexivity.
Qed.

(** C10.  A digest is the hex encoding of the 64 derived bytes, a dot, and
    the hex encoding of the 8 random bytes: 128 hex characters, then 16 hex
    characters, neither part holding a dot, so that the split at the dot that
    [compare] makes yields exactly these two components. *)
Theorem toHash_shape (rnd : list byte) (p : string) :
  derives_keylen scrypt ->
  length rnd = 8 ->
  let derived := toString_hex (scrypt (p +:+ pepper) (toString_hex rnd) 64) in
  let salt := toString_hex rnd in
  toHash rnd p = derived +:+ "." +:+ salt
  /\ String.length derived = 128 /\ all_chars is_hex_char derived = true
  /\ String.length salt = 16 /\ all_chars is_hex_char salt = true
  /\ occurs "." derived = false /\ occurs "." salt = false
  /\ split "." (toHash rnd p) = [derived; salt].
Proof.
  intros Hlen Hrnd derived salt. subst derived salt.
  repeat split.
  - rewrite toString_hex_length, Hlen. reflexivity.
  - apply toString_hex_all_hex.
  - rewrite toString_hex_length, Hrnd. reflexivity.
  - apply toString_hex_all_hex.
  - apply toString_hex_no_dot.
  - apply toString_hex_no_dot.
  - apply split_toHash.
Qed.

(** C1, as the code has it.  A password verifies against its own digest;
    another plaintext verifies exactly when its derivation under the stored
    salt yields the same bytes, and is refused whenever the bytes differ. *)
Theorem compare_toHash_iff (rnd : list byte) (p : string) :
  compare (toHash rnd p) p = Ok true
  /\ forall p',
       (compare (toHash rnd p) p' = Ok true
        <-> scrypt (p' +:+ pepper) (toString_hex rnd) 64
            = scrypt (p +:+ pepper) (toString_hex rnd) 64)
       /\ (compare (toHash rnd p) p' = Ok false
           <-> scrypt (p' +:+ pepper) (toString_hex rnd) 64
               <> scrypt (p +:+ pepper) (toString_hex rnd) 64).
Proof.
  split.
  - rewrite compare_toHash. now rewrite bool_decide_eq_true_2.
  - intros p'. rewrite compare_toHash. split; split.
    + intros [= H%bool_decide_eq_true]. congruence.
    + intros H. now rewrite bool_decide_eq_true_2.
    + intros [= H%bool_decide_eq_false]. congruence.
    + intros H. rewrite bool_decide_eq_false_2; [reflexivity|congruence].
Qed.
End PasswordProperties.

Lemma sample_kdf_keylen : derives_keylen sample_kdf.
Proof.
  intros password salt keylen. unfold sample_kdf.
  rewrite length_take, length_app, repeat_length. lia.
Qed.

Lemma toHash_shape_witness :
  split "." (Password.toHash sample_kdf "pepper" sample_rnd "password1")
  = [toString_hex (sample_kdf "password1pepper" "0123456789abcdef" 64);
     "0123456789abcdef"].
Proof.
  exact (proj2 (proj2 (proj2 (proj2 (proj2 (proj2 (proj2
    (toHash_shape sample_kdf "pepper" sample_rnd "password1"
       sample_kdf_keylen eq_refl)))))))).
Defined.

Example toHash_sample :
  Password.toHash sample_kdf "pepper" sample_rnd "pw"
  = "70777065707065723031323334353637383961626364656600000000000000000000"
    +:+ "000000000000000000000000000000000000000000000000000000000000"
    +:+ ".0123456789abcdef"
  /\ Password.compare sample_kdf "pepper"
       (Password.toHash sample_kdf "pepper" sample_rnd "pw") "pw" = Ok true
  /\ Password.compare sample_kdf "pepper"
       (Password.toHash sample_kdf "pepper" sample_rnd "pw") "pW" = Ok false
  /\ Password.compare sample_kdf "pepper" "nodelimiter" "pw"
     = Throw (TypeError "The salt argument must be of type string").
Proof. repeat split. Qed.

(** Distinct plaintexts outnumber the derived keys: whatever the
    derivation, two of them share a digest's bytes. *)
Lemma card_byte_gt_1 : 1 < card byte.
Proof. vm_compute. lia. Qed.

Lemma derivation_collides (scrypt : string -> string -> nat -> list byte)
    (pepper salt : string) :
  derives_keylen scrypt ->
  exists p p', p <> p'
    /\ scrypt (p +:+ pepper) salt 64 = scrypt (p' +:+ pepper) salt 64.
Proof.
  intros Hlen.
  pose (f := fun x : { l : list byte | length l = 65 } =>
               (scrypt (string_of_list_byte (`x) +:+ pepper) salt 64
                  ↾ Hlen _ _ 64 : { l : list byte | length l = 64 })).
  destruct (finite_pigeonhole f) as (x1 & x2 & Hne & Heq).
  { rewrite !list_card. apply Nat.pow_lt_mono_r; [apply card_byte_gt_1|].
    apply Nat.lt_succ_diag_r. }
  exists (string_of_list_byte (`x1)), (string_of_list_byte (`x2)). split.
  - intros H. apply Hne, (sig_eq_pi _).
    rewrite <- (list_byte_of_string_of_list_byte (`x1)),
            <- (list_byte_of_string_of_list_byte (`x2)).
    now rewrite H.
  - exact (f_equal proj1_sig Heq).
Qed.

(** C1 as stated fails: no derivation with 64-byte keys lets [compare]
    refuse every plaintext other than the hashed one. *)
Lemma compare_refuses_all_others_fails :
  ~ exists (scrypt : string -> string -> nat -> list byte) (pepper : string)
      (rnd : list byte),
      derives_keylen scrypt
      /\ forall p p', p <> p' ->
           Password.compare scrypt pepper (Password.toHash scrypt pepper rnd p) p'
           = Ok false.
Proof.
  intros (scrypt & pepper & rnd & Hlen & Hall).
  destruct (derivation_collides scrypt pepper (toString_hex rnd) Hlen)
    as (p & p' & Hne & Heq).
  specialize (Hall p p' Hne). rewrite compare_toHash in Hall.
  rewrite bool_decide_eq_true_2 in Hall by exact Heq. discriminate Hall.
Qed.


(** ** Handlers: what a response carries *)

Lemma rest_without_password_lookup (user : User.t) :
  rest_without_password user !! "password" = None.
Proof. unfold rest_without_password. apply lookup_delete_eq. Qed.

(** The rest of the pattern keeps every other property of the row. *)
Lemma rest_without_password_other (user : User.t) (k : string) :
  k <> "password" -> rest_without_password user !! k = user_object user !! k.
Proof. intros Hk. unfold rest_without_password. now apply lookup_delete_ne. Qed.

(** Inversion of a bind that resolved. *)
Lemma bind_Ok {DB A B} (m : M DB A) (k : A -> M DB B) db b db' :
  bind m k db = (Ok b, db') ->
  exists a db1, m db = (Ok a, db1) /\ k a db1 = (Ok b, db').
Proof.
  unfold bind. destruct (m db) as [[a|e] db1]; [eauto|discriminate].
Qed.

Ltac invert_binds :=
  repeat match goal with
         | H : bind _ _ _ = (Ok _, _) |- _ =>
             apply bind_Ok in H; destruct H as (? & ? & ? & H)
         | H : ret _ _ = (Ok _, _) |- _ => unfold ret in H; injection H as <- <-
         | H : throw _ _ = (Ok _, _) |- _ => discriminate H
         end.

Section HandlerProperties.
Context {DB : Type}.
Variable scrypt : string -> string -> nat -> list byte.
Variable pepper : string.
Variable prisma : Prisma.Client DB.
Variable UserModel_login : string -> string -> M DB User.t.

(** C2.  Whatever the data access layer hands over, the body a user handler
    sends has no password property: the object for register, login, get by
    id and update, every element of the array for get all. *)
Theorem responses_have_no_password
    (req : UserController.request) (db db' : DB) (res : response) :
  UserController.handle scrypt pepper prisma UserModel_login req db = (Ok res, db') ->
  no_password (body res).
Proof.
  destruct req; simpl; intros H.
  - unfold UserController.register in H. invert_binds.
    match goal with H : (if ?x is Some _ then _ else _) _ = _ |- _ => destruct x end;
      invert_binds.
    apply rest_without_password_lookup.
  - unfold UserController.login in H. invert_binds. apply rest_without_password_lookup.
  - unfold UserController.getById in H. invert_binds. apply rest_without_password_lookup.
  - unfold UserController.getAll in H. invert_binds. simpl.
    match goal with H : _ = (Ok ?us, _) |- Forall _ (map _ ?us) =>
      clear H; induction us as [|u us IH] end; simpl.
    + constructor.
    + constructor; [apply rest_without_password_lookup|exact IH].
  - unfold UserController.update in H. invert_binds. apply rest_without_password_lookup.
  - unfold UserController.delete in H. invert_binds. exact I.
Qed.
End HandlerProperties.

Lemma responses_have_no_password_witness :
  UserController.handle sample_kdf "pepper" MemStore.prisma
    (UserModel.login sample_kdf "pepper" MemStore.prisma)
    (UserController.GetById "id-0") sample_db
  = (Ok (Response 200 (Json (rest_without_password alice))), sample_db)
  /\ no_password (Json (rest_without_password alice)).
Proof.
  split; [reflexivity|].
  exact (responses_have_no_password sample_kdf "pepper" MemStore.prisma
           (UserModel.login sample_kdf "pepper" MemStore.prisma)
           (UserController.GetById "id-0") sample_db sample_db
           (Response 200 (Json (rest_without_password alice))) eq_refl).
Defined.


(** ** Login: the two ways to fail *)

Section LoginProperties.
Context {DB : Type}.
Variable scrypt : string -> string -> nat -> list byte.
Variable pepper : string.
Variable prisma : Prisma.Client DB.

Local Abbreviation login :=
  (UserController.login (UserModel.login scrypt pepper prisma)).

Lemma login_unknown_email (email password : string) (db db' : DB) :
  Prisma.user_findUnique prisma (ByEmail email) db = (Ok None, db') ->
  login email password db = (Throw (BadRequestError "Invalid credentials"), db').
Proof.
  intros H. unfold UserController.login, UserModel.login, bind. now rewrite H.
Qed.

Lemma login_wrong_password (email password : string) (user : User.t) (db db' : DB) :
  Prisma.user_findUnique prisma (ByEmail email) db = (Ok (Some user), db') ->
  Password.compare scrypt pepper (User.password user) password = Ok false ->
  login email password db = (Throw (BadRequestError "Invalid credentials"), db').
Proof.
  intros H Hc. unfold UserController.login, UserModel.login, bind, lift.
  now rewrite H, Hc.
Qed.

(** C3.  A login with an email no user has and a login with a password
    that does not verify against the digest of the user found fail alike:
    the same error class with the same message, and nothing is sent. *)
Theorem login_failures_alike
    (email1 password1 : string) (db1 db1' : DB)
    (email2 password2 : string) (user : User.t) (db2 db2' : DB) :
  Prisma.user_findUnique prisma (ByEmail email1) db1 = (Ok None, db1') ->
  Prisma.user_findUnique prisma (ByEmail email2) db2 = (Ok (Some user), db2') ->
  Password.compare scrypt pepper (User.password user) password2 = Ok false ->
  (login email1 password1 db1).1 = Throw (BadRequestError "Invalid credentials")
  /\ (login email2 password2 db2).1 = (login email1 password1 db1).1.
Proof.
  intros H1 H2 Hc.
  rewrite (login_unknown_email _ _ _ _ H1), (login_wrong_password _ _ _ _ _ H2 Hc).
  split; reflexivity.
Qed.
End LoginProperties.

Lemma login_failures_alike_witness :
  (UserController.login (UserModel.login sample_kdf "pepper" MemStore.prisma)
     "nobody@b.com" "password1" sample_db).1
  = Throw (BadRequestError "Invalid credentials")
  /\ (UserController.login (UserModel.login sample_kdf "pepper" MemStore.prisma)
        "a@b.com" "password2" sample_db).1
     = (UserController.login (UserModel.login sample_kdf "pepper" MemStore.prisma)
          "nobody@b.com" "password1" sample_db).1.
Proof.
  exact (login_failures_alike sample_kdf "pepper" MemStore.prisma
           "nobody@b.com" "password1" sample_db sample_db
           "a@b.com" "password2" alice sample_db sample_db
           eq_refl eq_refl eq_refl).
Defined.

(** The right password does log in, so the failures above are failures of
    the credentials. *)
Example login_succeeds :
  UserController.login (UserModel.login sample_kdf "pepper" MemStore.prisma)
    "a@b.com" "password1" sample_db
  = (Ok (Response 200 (Json (rest_without_password alice))), sample_db).
Proof. reflexivity. Qed.

(** ** Finding rows *)

Section FindProperties.
Context {DB : Type}.
Variable prisma : Prisma.Client DB.

Lemma user_findById_missing (id : string) (db db' : DB) :
  Prisma.user_findUnique prisma (ById id) db = (Ok None, db') ->
  UserModel.findById prisma id db = (Throw (NotFound "User not found"), db').
Proof. intros H. unfold UserModel.findById, bind. now rewrite H. Qed.

Lemma user_findById_found (id : string) (user : User.t) (db db' : DB) :
  Prisma.user_findUnique prisma (ById id) db = (Ok (Some user), db') ->
  UserModel.findById prisma id db = (Ok user, db').
Proof. intros H. unfold UserModel.findById, bind. now rewrite H. Qed.

Lemma meal_findById_missing (id : string) (db db' : DB) :
  Prisma.meal_findUnique prisma id db = (Ok None, db') ->
  MealModel.findById prisma id db = (Throw (NotFound "Meal not found"), db').
Proof. intros H. unfold MealModel.findById, bind. now rewrite H. Qed.

Lemma meal_findById_found (id : string) (meal : Meal.t) (db db' : DB) :
  Prisma.meal_findUnique prisma id db = (Ok (Some meal), db') ->
  MealModel.findById prisma id db = (Ok meal, db').
Proof. intros H. unfold MealModel.findById, bind. now rewrite H. Qed.
End FindProperties.

Lemma find_none_iff {A} (f : A -> bool) (l : list A) :
  List.find f l = None <-> forall x, In x l -> f x = false.
Proof.
  split; [apply find_none|].
  induction l as [|a l IH]; simpl; [reflexivity|]. intros H.
  rewrite (H a (or_introl eq_refl)). apply IH. intros x Hx. apply H. now right.
Qed.

(** C5.  On the store, finding by id resolves to a row with that id when
    one exists and rejects with [NotFound] exactly when none does; it has no
    absent result.  Finding by email or phone resolves in both cases, to
    the row or to the absent value. *)
Theorem find_by_id_or_unique_field (d : MemStore.db) (id email phone : string) :
  ((exists user, UserModel.findById MemStore.prisma id d = (Ok user, d)
                 /\ In user (MemStore.users d) /\ User.id user = id)
   \/ (UserModel.findById MemStore.prisma id d = (Throw (NotFound "User not found"), d)
       /\ forall user, In user (MemStore.users d) -> User.id user <> id))
  /\ ((exists meal, MealModel.findById MemStore.prisma id d = (Ok meal, d)
                    /\ In meal (MemStore.meals d) /\ Meal.id meal = id)
      \/ (MealModel.findById MemStore.prisma id d = (Throw (NotFound "Meal not found"), d)
          /\ forall meal, In meal (MemStore.meals d) -> Meal.id meal <> id))
  /\ ((forall user, In user (MemStore.users d) -> User.email user <> email) ->
      UserModel.findByEmail MemStore.prisma email d = (Ok None, d))
  /\ ((forall user, In user (MemStore.users d) -> User.phone user <> phone) ->
      UserModel.findByPhone MemStore.prisma phone d = (Ok None, d))
  /\ (exists found, UserModel.findByEmail MemStore.prisma email d = (Ok found, d))
  /\ (exists found, UserModel.findByPhone MemStore.prisma phone d = (Ok found, d)).
Proof.
  repeat apply conj.
  - destruct (MemStore.find_user (ById id) d) as [user|] eqn:E.
    + left. exists user. split; [now apply user_findById_found; cbn; rewrite <- E|].
      apply find_some in E as [Hin Hid]. split; [exact Hin|].
      now apply String.eqb_eq in Hid.
    + right. split; [now apply user_findById_missing; cbn; rewrite <- E|].
      intros user Hin Hid. pose proof (proj1 (find_none_iff _ _) E user Hin) as Hf.
      cbn in Hf. apply String.eqb_neq in Hf. contradiction.
  - destruct (MemStore.find_meal id d) as [meal|] eqn:E.
    + left. exists meal. split; [now apply meal_findById_found; cbn; rewrite <- E|].
      apply find_some in E as [Hin Hid]. split; [exact Hin|].
      now apply String.eqb_eq in Hid.
    + right. split; [now apply meal_findById_missing; cbn; rewrite <- E|].
      intros meal Hin Hid. pose proof (proj1 (find_none_iff _ _) E meal Hin) as Hf.
      apply String.eqb_neq in Hf. contradiction.
  - intros H. cbn. unfold MemStore.user_findUnique, MemStore.find_user.
    rewrite (proj2 (find_none_iff _ _)); [reflexivity|].
    intros user Hin. cbn. apply String.eqb_neq. now apply H.
  - intros H. cbn. unfold MemStore.user_findUnique, MemStore.find_user.
    rewrite (proj2 (find_none_iff _ _)); [reflexivity|].
    intros user Hin. cbn. apply String.eqb_neq. now apply H.
  - eexists. reflexivity.
  - eexists. reflexivity.
Qed.

Example find_by_id_examples :
  UserModel.findById MemStore.prisma "id-0" sample_db = (Ok alice, sample_db)
  /\ UserModel.findById MemStore.prisma "id-7" sample_db
     = (Throw (NotFound "User not found"), sample_db)
  /\ UserModel.findByEmail MemStore.prisma "nobody@b.com" sample_db = (Ok None, sample_db)
  /\ MealModel.findById MemStore.prisma "id-1" sample_db = (Ok salad, sample_db)
  /\ MealModel.findById MemStore.prisma "id-0" sample_db
     = (Throw (NotFound "Meal not found"), sample_db).
Proof. repeat split. Qed.

(** ** Failure translation *)

Section TranslationProperties.
Context {DB : Type}.
Variable scrypt : string -> string -> nat -> list byte.
Variable pepper : string.
Variable prisma : Prisma.Client DB.

Lemma user_handlePrismaError_spec (e : exn) :
  exists r, (do! lift (UserModel.handlePrismaError e) in throw e)
            = (throw r : M DB unit)
            /\ user_translation e r.
Proof.
  unfold UserModel.handlePrismaError, user_translation.
  destruct (decide (error_code e = Some "P2025")) as [H1|H1].
  - rewrite bool_decide_eq_true_2 by exact H1. eexists. split; [reflexivity|].
    repeat split; congruence.
  - rewrite bool_decide_eq_false_2 by exact H1.
    destruct (decide (error_code e = Some "P2002")) as [H2|H2].
    + rewrite bool_decide_eq_true_2 by exact H2.
      destruct e as [| | |pe]; try discriminate H2. cbn [target_field error_meta].
      destruct (meta pe) as [[[|field target]|]|]; eexists;
        (split; [reflexivity|]); repeat split; try congruence;
        intros; simplify_eq; try reflexivity; eexists; reflexivity.
    + rewrite bool_decide_eq_false_2 by exact H2. exists e. split; [reflexivity|].
      repeat split; congruence.
Qed.

Lemma user_try_catch {A} (m : M DB A) (db db' : DB) (e : exn) :
  m db = (Throw e, db') ->
  exists r, try_catch m UserModel.catch_clause db = (Throw r, db')
            /\ user_translation e r.
Proof.
  intros H. destruct (user_handlePrismaError_spec e) as (r & Hr & Ht).
  exists r. split; [|exact Ht].
  unfold try_catch, UserModel.catch_clause. rewrite H.
  apply (f_equal (fun m : M DB unit => m db')) in Hr.
  unfold bind, lift, throw in *.
  destruct (UserModel.handlePrismaError e); congruence.
Qed.



End TranslationProperties.


Example translated_messages :
  UserModel.create sample_kdf "pepper" MemStore.prisma sample_rnd
    (CreateUserData.Build "a@b.com" "B" "2" "password2") sample_db
  = (Throw (BadRequestError "email is already in use"), sample_db)
  /\ UserModel.delete MemStore.prisma "id-9" sample_db
     = (Throw (NotFound "User not found"), sample_db)
  /\ UserModel.delete (rejecting (TypeError "socket closed")) "id-0" tt
     = (Throw (TypeError "socket closed"), tt)
  /\ UserModel.delete
       (rejecting (StoreError (PrismaError "P2002" None "Unique constraint failed")))
       "id-0" tt
     = (Throw (BadRequestError "Field is already in use"), tt)
  /\ UserModel.delete
       (rejecting (StoreError (PrismaError "P2002" (Some (Some []))
                                 "Unique constraint failed")))
       "id-0" tt
     = (Throw (BadRequestError "Field is already in use"), tt)
  /\ UserModel.delete
       (rejecting (StoreError (PrismaError "P2002" (Some None)
                                 "Unique constraint failed")))
       "id-0" tt
     = (Throw (TypeError "Cannot read properties of undefined (reading '0')"), tt).
Proof. repeat split. Qed.



(** ** Updating a user *)

Lemma existsb_false_iff {A} (f : A -> bool) (l : list A) :
  existsb f l = false <-> forall x, In x l -> f x = false.
Proof.
  induction l as [|a l IH]; simpl.
  - split; [intros _ x []|reflexivity].
  - rewrite orb_false_iff, IH. split.
    + intros [Ha Hl] x [<-|Hx]; auto.
    + intros H. split; [apply H; now left|]. intros x Hx. apply H. now right.
Qed.


Lemma truthy_nonempty (p : string) : p <> "" -> UserModel.truthy (Some p) = true.
Proof. intros H. simpl. now apply String.eqb_neq in H as ->. Qed.

(** After an update of the store, looking up the id the row now has finds
    the updated row, given that no other row has that id. *)
Lemma find_replaced (id : string) (u' : User.t) (us : list User.t) (u : User.t) :
  (forall r, In r us -> User.id r <> id -> User.id r <> User.id u') ->
  List.find (MemStore.user_matches (ById id)) us = Some u ->
  List.find (MemStore.user_matches (ById (User.id u')))
    (map (fun r => if MemStore.user_matches (ById id) r then u' else r) us)
  = Some u'.
Proof.
  induction us as [|r us IH]; [discriminate|]. intros Hother.
  cbn [map List.find MemStore.user_matches].
  destruct (String.eqb (User.id r) id) eqn:E.
  - intros _. now rewrite String.eqb_refl.
  - apply String.eqb_neq in E.
    assert (User.id r <> User.id u') as Hr by (apply Hother; [now left|exact E]).
    apply String.eqb_neq in Hr. rewrite Hr. apply IH.
    intros r' Hr'. apply Hother. now right.
Qed.

(** What a successful update of the store leaves behind. *)
Lemma store_update_Ok (id : string) (data : UserUpdateInput.t)
    (d d' : MemStore.db) (u' : User.t) :
  MemStore.user_update id data d = (Ok u', d') ->
  exists u, MemStore.find_user (ById id) d = Some u
            /\ User.id u = id
            /\ u' = MemStore.apply_update data u
            /\ MemStore.find_user (ById (User.id u')) d' = Some u'.
Proof.
  unfold MemStore.user_update.
  destruct (MemStore.find_user (ById id) d) as [u|] eqn:E; [|discriminate].
  destruct (MemStore.taken_column _ _) eqn:Et; [discriminate|].
  intros [= <- <-]. exists u.
  assert (User.id u = id) as Hid.
  { apply find_some in E as [_ E]. now apply String.eqb_eq in E. }
  repeat split; [exact Hid|].
  unfold MemStore.find_user in *. cbn [MemStore.users MemStore.with_users].
  apply find_replaced with (u := u); [|exact E].
  intros r Hr Hne.
  unfold MemStore.taken_column in Et.
  destruct (existsb _ (MemStore.other_users id d)) eqn:Eid; [discriminate Et|].
  assert (MemStore.user_matches (ById (User.id (MemStore.apply_update data u))) r
          = false) as Hf.
  { apply (proj1 (existsb_false_iff _ _) Eid). unfold MemStore.other_users.
    apply filter_In. split; [exact Hr|]. cbn. apply negb_true_iff.
    now apply String.eqb_neq. }
  cbn [MemStore.user_matches] in Hf. now apply String.eqb_neq in Hf.
Qed.

(** A payload of the declared type names no id: the row keeps its own. *)
Lemma typed_update_keeps_id (scrypt : string -> string -> nat -> list byte)
    (pepper : string) (rnd : list byte) (data : UpdateUserData.t) (u : User.t) :
  User.id (MemStore.apply_update (UserModel.updateData scrypt pepper rnd data) u)
  = User.id u.
Proof.
  unfold UserModel.updateData. destruct (UserModel.truthy _); reflexivity.
Qed.

Ltac expose_data :=
  cbn [UserUpdateInput.of_data UserUpdateInput.id UserUpdateInput.email
       UserUpdateInput.name UserUpdateInput.phone UserUpdateInput.password
       UserUpdateInput.createdAt] in *.

Lemma try_catch_Ok {DB A} (m : M DB A) (h : exn -> M DB A) db a db' :
  (forall e d, (h e d).1 <> Ok a) ->
  try_catch m h db = (Ok a, db') -> m db = (Ok a, db').
Proof.
  intros Hh. unfold try_catch. destruct (m db) as [[x|e] d1]; [done|].
  intros H. exfalso. apply (Hh e d1). now rewrite H.
Qed.

Lemma user_catch_clause_throws {DB A} (e : exn) (d : DB) (a : A) :
  (UserModel.catch_clause e d).1 <> Ok a.
Proof.
  unfold UserModel.catch_clause, bind, lift, throw.
  destruct (UserModel.handlePrismaError e); discriminate.
Qed.

Section UpdateProperties.
Variable scrypt : string -> string -> nat -> list byte.
Variable pepper : string.

Local Abbreviation toHash := (Password.toHash scrypt pepper).
Local Abbreviation updateData := (UserModel.updateData scrypt pepper).
Local Abbreviation update := (UserModel.update scrypt pepper).

(** C7, as the code has it.  An update whose payload carries a non-empty
    password persists the digest of that password and the other supplied
    fields as given; a payload without a password is handed over as it is;
    an update of an id no row has fails with [NotFound]. *)
Theorem update_rehashes_nonempty_password
    (rnd : list byte) (id : string) (data : UpdateUserData.t) :
  (forall p, UpdateUserData.password data = Some p -> p <> "" ->
     updateData rnd data
     = UpdateUserData.Build (UpdateUserData.email data) (UpdateUserData.name data)
         (UpdateUserData.phone data) (Some (toHash rnd p)))
  /\ (UpdateUserData.password data = None -> updateData rnd data = data)
  /\ (forall d u d',
        update MemStore.prisma rnd id data d = (Ok u, d') ->
        MemStore.find_user (ById id) d' = Some u
        /\ (forall p, UpdateUserData.password data = Some p -> p <> "" ->
              User.password u = toHash rnd p)
        /\ (forall e, UpdateUserData.email data = Some e -> User.email u = e)
        /\ (forall n, UpdateUserData.name data = Some n -> User.name u = n)
        /\ (forall ph, UpdateUserData.phone data = Some ph -> User.phone u = ph))
  /\ (forall d,
        (forall user, In user (MemStore.users d) -> User.id user <> id) ->
        update MemStore.prisma rnd id data d = (Throw (NotFound "User not found"), d))
  /\ (forall DB (prisma : Prisma.Client DB) db db' e,
        Prisma.user_update prisma id (updateData rnd data) db = (Throw e, db') ->
        error_code e = Some "P2025" ->
        update prisma rnd id data db = (Throw (NotFound "User not found"), db')).
Proof.
  repeat apply conj.
  - intros p Hp Hne. unfold UserModel.updateData. expose_data.
    rewrite Hp, (truthy_nonempty p Hne). reflexivity.
  - intros Hp. unfold UserModel.updateData. expose_data. now rewrite Hp.
  - intros d u d' H.
    apply try_catch_Ok in H; [|intros; apply user_catch_clause_throws].
    apply store_update_Ok in H as (u0 & _ & Hid & -> & Hfind).
    rewrite typed_update_keeps_id, Hid in Hfind.
    split; [exact Hfind|]. repeat apply conj.
    + intros p Hp Hne. unfold UserModel.updateData. expose_data.
      rewrite Hp, (truthy_nonempty p Hne). reflexivity.
    + intros e He. unfold UserModel.updateData.
      destruct (UserModel.truthy _); cbn; now rewrite He.
    + intros n Hn. unfold UserModel.updateData.
      destruct (UserModel.truthy _); cbn; now rewrite Hn.
    + intros ph Hph. unfold UserModel.updateData.
      destruct (UserModel.truthy _); cbn; now rewrite Hph.
  - intros d Hnone. unfold UserModel.update, try_catch. cbn.
    unfold MemStore.user_update, MemStore.find_user.
    rewrite (proj2 (find_none_iff _ _)); [reflexivity|].
    intros user Hin. cbn. apply String.eqb_neq. now apply Hnone.
  - intros DB prisma db db' e H Hcode.
    destruct (user_try_catch _ _ _ _ H) as (r & Hr & Ht & _).
    rewrite (Ht Hcode) in Hr. exact Hr.
Qed.

(** C9.  The guard of [update] is the truthiness of the password: a payload
    whose password is the empty string is handed to the store as it is, and
    the row then holds the empty string as its password. *)
Theorem update_keeps_empty_password
    (rnd : list byte) (id : string) (data : UpdateUserData.t) :
  UpdateUserData.password data = Some "" ->
  updateData rnd data = data
  /\ (forall DB (prisma : Prisma.Client DB) db,
        update prisma rnd id data db
        = try_catch (Prisma.user_update prisma id data) UserModel.catch_clause db)
  /\ (forall d u d',
        update MemStore.prisma rnd id data d = (Ok u, d') ->
        User.password u = "" /\ MemStore.find_user (ById id) d' = Some u).
Proof.
  intros Hp.
  assert (updateData rnd data = data) as Hdata.
  { unfold UserModel.updateData. expose_data. now rewrite Hp. }
  repeat apply conj.
  - exact Hdata.
  - intros DB prisma db. unfold UserModel.update. now rewrite Hdata.
  - intros d u d' H. unfold UserModel.update in H. rewrite Hdata in H.
    apply try_catch_Ok in H; [|intros; apply user_catch_clause_throws].
    apply store_update_Ok in H as (u0 & _ & Hid & -> & Hfind).
    cbn [MemStore.apply_update User.id UserUpdateInput.of_data UserUpdateInput.id
         default] in Hfind.
    rewrite Hid in Hfind.
    split; [|exact Hfind]. cbn. now rewrite Hp.
Qed.
End UpdateProperties.

Lemma update_keeps_empty_password_witness :
  exists u d',
    UserModel.update sample_kdf "pepper" MemStore.prisma sample_rnd "id-0"
      (UpdateUserData.Build None (Some "Alice") None (Some "")) sample_db
    = (Ok u, d')
    /\ User.password u = "" /\ MemStore.find_user (ById "id-0") d' = Some u.
Proof.
  eexists _, _. split; [reflexivity|].
  exact (proj2 (proj2
    (update_keeps_empty_password sample_kdf "pepper" sample_rnd "id-0"
       (UpdateUserData.Build None (Some "Alice") None (Some "")) eq_refl))
    sample_db _ _ eq_refl).
Defined.

(** C7 as stated fails: the payload below contains a password field, and
    the row persisted holds the supplied text, not a digest. *)
Lemma update_empty_password_not_hashed :
  UserModel.update sample_kdf "pepper" MemStore.prisma sample_rnd "id-0"
    (UpdateUserData.Build None None None (Some "")) sample_db
  = (Ok (User.Build "id-0" "a@b.com" "A" "1" "" 0),
     MemStore.Db [User.Build "id-0" "a@b.com" "A" "1" "" 0]
       [salad] ["plan123"] 2 2).
Proof. reflexivity. Qed.

Lemma update_rehashes_nonempty_password_witness :
  UserModel.update sample_kdf "pepper" MemStore.prisma sample_rnd "id-0"
    (UpdateUserData.Build None (Some "Alice") None (Some "password2")) sample_db
  = (Ok (User.Build "id-0" "a@b.com" "Alice" "1"
           (Password.toHash sample_kdf "pepper" sample_rnd "password2") 0),
     MemStore.Db [User.Build "id-0" "a@b.com" "Alice" "1"
                    (Password.toHash sample_kdf "pepper" sample_rnd "password2") 0]
       [salad] ["plan123"] 2 2)
  /\ User.password (User.Build "id-0" "a@b.com" "Alice" "1"
           (Password.toHash sample_kdf "pepper" sample_rnd "password2") 0)
     = Password.toHash sample_kdf "pepper" sample_rnd "password2"
  /\ UserModel.update sample_kdf "pepper" MemStore.prisma sample_rnd "id-5"
       (UpdateUserData.Build None (Some "Alice") None (Some "password2")) sample_db
     = (Throw (NotFound "User not found"), sample_db).
Proof.
  pose proof (update_rehashes_nonempty_password sample_kdf "pepper" sample_rnd "id-0"
    (UpdateUserData.Build None (Some "Alice") None (Some "password2"))) as H0.
  pose proof (update_rehashes_nonempty_password sample_kdf "pepper" sample_rnd "id-5"
    (UpdateUserData.Build None (Some "Alice") None (Some "password2"))) as H5.
  split; [reflexivity|]. split.
  - refine (proj1 (proj2 (proj1 (proj2 (proj2 H0)) sample_db _ _ eq_refl))
              "password2" eq_refl _).
    discriminate.
  - apply (proj1 (proj2 (proj2 (proj2 H5)))).
    intros user [<-|[]]. discriminate.
Defined.


(** ** Registration: what is checked before the insert *)

Section RegisterProperties.
Variable scrypt : string -> string -> nat -> list byte.
Variable pepper : string.

Local Abbreviation register := (UserController.register scrypt pepper).

Lemma register_email_taken {DB} (prisma : Prisma.Client DB)
    (rnd : list byte) (body : CreateUserData.t) (db db' : DB) (user : User.t) :
  Prisma.user_findUnique prisma (ByEmail (CreateUserData.email body)) db
  = (Ok (Some user), db') ->
  register prisma rnd body db = (Throw (BadRequestError "Email already in use"), db').
Proof.
  intros H. unfold UserController.register, UserModel.findByEmail, bind.
  now rewrite H.
Qed.

Lemma register_create_rejected {DB} (prisma : Prisma.Client DB)
    (rnd : list byte) (body : CreateUserData.t) (db db1 db2 : DB) (e : exn) :
  Prisma.user_findUnique prisma (ByEmail (CreateUserData.email body)) db
  = (Ok None, db1) ->
  Prisma.user_create prisma (hashed_data scrypt pepper rnd body) db1 = (Throw e, db2) ->
  exists r, register prisma rnd body db = (Throw r, db2) /\ user_translation e r.
Proof.
  intros Hfind Hcreate.
  destruct (user_try_catch _ _ _ _ Hcreate) as (r & Hr & Ht).
  exists r. split; [|exact Ht].
  unfold UserController.register, UserModel.findByEmail, bind. rewrite Hfind.
  unfold UserModel.create. cbn [CreateUserData.email CreateUserData.name
    CreateUserData.phone CreateUserData.password].
  unfold hashed_data in Hr. now rewrite Hr.
Qed.

Lemma register_created {DB} (prisma : Prisma.Client DB)
    (rnd : list byte) (body : CreateUserData.t) (db db1 db2 : DB) (user : User.t) :
  Prisma.user_findUnique prisma (ByEmail (CreateUserData.email body)) db
  = (Ok None, db1) ->
  Prisma.user_create prisma (hashed_data scrypt pepper rnd body) db1 = (Ok user, db2) ->
  register prisma rnd body db
  = (Ok (Response 201 (Json (rest_without_password user))), db2).
Proof.
  intros Hfind Hcreate.
  unfold UserController.register, UserModel.findByEmail, bind. rewrite Hfind.
  unfold UserModel.create, try_catch. cbn [CreateUserData.email CreateUserData.name
    CreateUserData.phone CreateUserData.password].
  unfold hashed_data in Hcreate. now rewrite Hcreate.
Qed.

(** The same on the reference store: a taken email is refused before the
    insert, a taken phone by the insert. *)
Lemma register_on_store
    (rnd : list byte) (body : CreateUserData.t) (d : MemStore.db) :
  (forall user, In user (MemStore.users d) ->
     User.id user <> MemStore.uuid (MemStore.next_id d)) ->
  ((exists user, In user (MemStore.users d)
                 /\ User.email user = CreateUserData.email body) ->
   register MemStore.prisma rnd body d
   = (Throw (BadRequestError "Email already in use"), d))
  /\ ((forall user, In user (MemStore.users d) ->
         User.email user <> CreateUserData.email body) ->
      (exists user, In user (MemStore.users d)
                    /\ User.phone user = CreateUserData.phone body) ->
      UserModel.findByEmail MemStore.prisma (CreateUserData.email body) d = (Ok None, d)
      /\ Prisma.user_create MemStore.prisma (hashed_data scrypt pepper rnd body) d
         = (Throw (MemStore.unique_violation "phone"), d)
      /\ register MemStore.prisma rnd body d
         = (Throw (BadRequestError "phone is already in use"), d)).
Proof.
  intros Hfresh. split.
  - intros (user & Hin & Hemail).
    destruct (MemStore.find_user (ByEmail (CreateUserData.email body)) d) as [u|] eqn:E.
    + apply register_email_taken with (user := u). cbn.
      unfold MemStore.user_findUnique. now rewrite E.
    + pose proof (proj1 (find_none_iff _ _) E user Hin) as Hf. cbn in Hf.
      apply String.eqb_neq in Hf. contradiction.
  - intros Hemail (user & Hin & Hphone).
    assert (MemStore.find_user (ByEmail (CreateUserData.email body)) d = None) as Hnone.
    { apply find_none_iff. intros u Hu. cbn. apply String.eqb_neq. now apply Hemail. }
    assert (Prisma.user_create MemStore.prisma (hashed_data scrypt pepper rnd body) d
            = (Throw (MemStore.unique_violation "phone"), d)) as Hcreate.
    { cbn. unfold MemStore.user_create, MemStore.taken_column. cbn.
      rewrite (proj2 (existsb_false_iff _ _)).
      2:{ intros u Hu. cbn. apply String.eqb_neq. now apply Hfresh. }
      rewrite (proj2 (existsb_false_iff _ _)).
      2:{ intros u Hu. cbn. apply String.eqb_neq. now apply Hemail. }
      assert (existsb (MemStore.user_matches (ByPhone (CreateUserData.phone body)))
                (MemStore.users d) = true) as ->; [|reflexivity].
      apply existsb_exists. exists user. split; [exact Hin|].
      cbn. now apply String.eqb_eq. }
    split; [cbn; unfold MemStore.user_findUnique; now rewrite Hnone|].
    split; [exact Hcreate|].
    destruct (register_create_rejected MemStore.prisma rnd body d d d
                (MemStore.unique_violation "phone")) as (r & Hr & Ht).
    + cbn. unfold MemStore.user_findUnique. now rewrite Hnone.
    + exact Hcreate.
    + rewrite Hr. destruct Ht as (_ & Ht & _).
      destruct (Ht eq_refl) as (_ & Hfield & _). now rewrite (Hfield ["phone"] eq_refl).
Qed.

(** C8.  Whatever client it runs on, registration asks the store one thing
    before the insert, the lookup by email.  When that finds a user it
    refuses with 'Email already in use' in the state the lookup left.  When
    it finds none, the outcome is the insert's, whatever a lookup by phone
    would have found: a resolved insert is answered 201, and a uniqueness
    violation on the phone, which only the insert can raise, comes back
    through the model's translation as 'phone is already in use'.  On the
    reference store a payload with a fresh email and the phone of an
    existing user is such a case. *)
Theorem register_prechecks_email_only (rnd : list byte) (body : CreateUserData.t) :
  (forall DB (prisma : Prisma.Client DB) (db : DB),
     (forall user db',
        Prisma.user_findUnique prisma (ByEmail (CreateUserData.email body)) db
        = (Ok (Some user), db') ->
        register prisma rnd body db
        = (Throw (BadRequestError "Email already in use"), db'))
     /\ (forall db1,
          Prisma.user_findUnique prisma (ByEmail (CreateUserData.email body)) db
          = (Ok None, db1) ->
          (forall user db2,
             Prisma.user_create prisma (hashed_data scrypt pepper rnd body) db1
             = (Ok user, db2) ->
             register prisma rnd body db
             = (Ok (Response 201 (Json (rest_without_password user))), db2))
          /\ (forall e db2,
                Prisma.user_create prisma (hashed_data scrypt pepper rnd body) db1
                = (Throw e, db2) ->
                exists r, register prisma rnd body db = (Throw r, db2)
                          /\ user_translation e r)
          /\ (forall message others db2,
                Prisma.user_create prisma (hashed_data scrypt pepper rnd body) db1
                = (Throw (StoreError
                            (PrismaError "P2002" (Some (Some ("phone" :: others)))
                               message)), db2) ->
                register prisma rnd body db
                = (Throw (BadRequestError "phone is already in use"), db2))))
  /\ (forall d : MemStore.db,
        (forall user, In user (MemStore.users d) ->
           User.id user <> MemStore.uuid (MemStore.next_id d)) ->
        ((exists user, In user (MemStore.users d)
                       /\ User.email user = CreateUserData.email body) ->
         register MemStore.prisma rnd body d
         = (Throw (BadRequestError "Email already in use"), d))
        /\ ((forall user, In user (MemStore.users d) ->
               User.email user <> CreateUserData.email body) ->
            (exists user, In user (MemStore.users d)
                          /\ User.phone user = CreateUserData.phone body) ->
            UserModel.findByEmail MemStore.prisma (CreateUserData.email body) d
            = (Ok None, d)
            /\ Prisma.user_create MemStore.prisma (hashed_data scrypt pepper rnd body) d
               = (Throw (MemStore.unique_violation "phone"), d)
            /\ register MemStore.prisma rnd body d
               = (Throw (BadRequestError "phone is already in use"), d))).
Proof.
  split; [|exact (register_on_store rnd body)].
  intros DB prisma db. split; [intros user db'; apply register_email_taken|].
  intros db1 Hfind. split; [|split].
  - intros user db2. now apply register_created.
  - intros e db2. now apply register_create_rejected.
  - intros message others db2 Hcreate.
    destruct (register_create_rejected prisma rnd body db db1 db2 _ Hfind Hcreate)
      as (r & Hr & _ & Ht & _).
    destruct (Ht eq_refl) as (_ & Hfield & _).
    rewrite Hr, (Hfield ("phone" :: others) eq_refl). reflexivity.
Qed.
End RegisterProperties.

(** A client whose lookup by phone finds a user with the payload's phone:
    registration does not ask it, and the outcome is the insert's. *)
Lemma register_prechecks_email_only_witness :
  UserController.register sample_kdf "pepper"
    (stubbed None (Some alice) (Throw (MemStore.unique_violation "phone"))) sample_rnd
    (CreateUserData.Build "c@d.com" "C" "1" "password3") tt
  = (Throw (BadRequestError "phone is already in use"), tt)
  /\ UserController.register sample_kdf "pepper"
       (stubbed None (Some alice) (Ok alice)) sample_rnd
       (CreateUserData.Build "c@d.com" "C" "1" "password3") tt
     = (Ok (Response 201 (Json (rest_without_password alice))), tt)
  /\ UserController.register sample_kdf "pepper" MemStore.prisma sample_rnd
       (CreateUserData.Build "c@d.com" "C" "1" "password3") sample_db
     = (Throw (BadRequestError "phone is already in use"), sample_db)
  /\ UserController.register sample_kdf "pepper" MemStore.prisma sample_rnd
       (CreateUserData.Build "a@b.com" "C" "3" "password3") sample_db
     = (Throw (BadRequestError "Email already in use"), sample_db).
Proof.
  pose proof (register_prechecks_email_only sample_kdf "pepper" sample_rnd
                (CreateUserData.Build "c@d.com" "C" "1" "password3")) as [Hany Hstore].
  pose proof (register_prechecks_email_only sample_kdf "pepper" sample_rnd
                (CreateUserData.Build "a@b.com" "C" "3" "password3")) as [_ Hstore'].
  assert (forall user, In user (MemStore.users sample_db) ->
            User.id user <> MemStore.uuid (MemStore.next_id sample_db)) as Hfresh.
  { intros user [<-|[]]. discriminate. }
  repeat apply conj.
  - apply (proj2 (proj2 (proj2
      (Hany unit (stubbed None (Some alice) (Throw (MemStore.unique_violation "phone")))
         tt) tt eq_refl)) "Unique constraint failed" [] tt eq_refl).
  - apply (proj1 (proj2
      (Hany unit (stubbed None (Some alice) (Ok alice)) tt) tt eq_refl) alice tt eq_refl).
  - apply (proj2 (Hstore sample_db Hfresh)).
    + intros user [<-|[]]. discriminate.
    + exists alice. split; [now left|reflexivity].
  - apply (proj1 (Hstore' sample_db Hfresh)).
    exists alice. split; [now left|reflexivity].
Defined.

Example register_succeeds :
  exists user d',
    UserController.register sample_kdf "pepper" MemStore.prisma sample_rnd
      (CreateUserData.Build "c@d.com" "C" "3" "password3") sample_db
    = (Ok (Response 201 (Json (rest_without_password user))), d')
    /\ User.id user = "id-2"
    /\ MemStore.find_user (ByPhone "3") d' = Some user
    /\ Password.compare sample_kdf "pepper" (User.password user) "password3" = Ok true.
Proof. eexists _, _. repeat split. Qed.

(** ** Routing *)

Example routes_served :
  Routing.serve Routing.GET "/healthz" = Routing.Handler Routing.Healthz
  /\ Routing.serve Routing.POST "/api/v1/users" = Routing.Handler Routing.UserRegister
  /\ Routing.serve Routing.GET "/api/v1/users/" = Routing.Handler Routing.UserGetAll
  /\ Routing.serve Routing.GET "/api/v1/users/123e4567" = Routing.Handler Routing.UserGetById
  /\ Routing.serve Routing.PUT "/api/v1/users/123e4567" = Routing.Handler Routing.UserUpdate
  /\ Routing.serve Routing.DELETE "/API/v1/Users/123e4567" = Routing.Handler Routing.UserDelete
  /\ Routing.serve Routing.GET "/api/v2/users" = Routing.Unmatched
  /\ Routing.serve Routing.GET "/%68ealthz" = Routing.Unmatched
  /\ Routing.serve Routing.GET "/api/v1/users/caf%C3%A9"
     = Routing.Handler Routing.UserGetById
  /\ Routing.serve Routing.GET "/api/v1/users/%zz" = Routing.MalformedParam
  /\ Routing.serve Routing.POST "/api/v1/users/%E0%80%80" = Routing.MalformedParam
  /\ Routing.serve Routing.HEAD "/healthz" = Routing.Handler Routing.Healthz
  /\ Routing.serve Routing.HEAD "/api/v1/users" = Routing.Handler Routing.UserGetAll
  /\ Routing.serve Routing.GET "//healthz" = Routing.NotPlain
  /\ Routing.serve Routing.GET "/api//v1/users" = Routing.NotPlain.
Proof. repeat split. Qed.

(** Induction over a layer and the routers mounted under it. *)
Fixpoint layer_router_ind (P : Routing.layer -> Prop) (Q : list Routing.layer -> Prop)
    (HRoute : forall m pattern h, P (Routing.Route m pattern h))
    (HUse : forall prefix router, Q router -> P (Routing.Use prefix router))
    (Hnil : Q [])
    (Hcons : forall l ls, P l -> Q ls -> Q (l :: ls))
    (l : Routing.layer) : P l :=
  match l with
  | Routing.Route m pattern h => HRoute m pattern h
  | Routing.Use prefix router =>
      HUse prefix router
        ((fix go (ls : list Routing.layer) : Q ls :=
            match ls with
            | [] => Hnil
            | l' :: ls' =>
                Hcons l' ls'
                  (layer_router_ind P Q HRoute HUse Hnil Hcons l') (go ls')
            end) router)
  end.

(** A request is only ever served by a handler chain some layer mounts. *)
Lemma dispatch_in_targets (m : Routing.method) (h : Routing.target)
    (l : Routing.layer) :
  forall path, Routing.dispatch_layer l m path = Some (Routing.Runs h) ->
               In h (Routing.targets l).
Proof.
  induction l using layer_router_ind with
    (Q := fun router =>
            forall path,
              Routing.dispatch_layer (Routing.Use [] router) m path
              = Some (Routing.Runs h) ->
              In h (Routing.targets (Routing.Use [] router))).
  - intros path. simpl.
    destruct (Routing.route_matches _ _); [|discriminate].
    destruct (Routing.params_decodable _ _); [|discriminate].
    destruct (Routing.handles_method _ _); intros [= <-]. now left.
  - intros path. simpl.
    destruct (Routing.strip_prefix _ path) as [rest|]; [|discriminate].
    apply (IHl rest).
  - intros path. discriminate.
  - intros path. simpl.
    destruct (Routing.dispatch_layer l m path) as [t|] eqn:E.
    + intros [= ->]. apply in_or_app. left. exact (IHl _ E).
    + intros H. apply in_or_app. right. exact (IHl0 path H).
Qed.

(** No request reaches the login handler. *)
Lemma login_handler_unreachable (m : Routing.method) (path : string) :
  Routing.serve m path <> Routing.Handler Routing.UserLogin.
Proof.
  unfold Routing.serve.
  destruct (Routing.segments path) as [segs|]; [|discriminate].
  destruct (Routing.dispatch_layer _ m _) as [[h|]|] eqn:E; try discriminate.
  apply dispatch_in_targets in E. intros [= ->].
  cbn in E. intuition discriminate.
Qed.

(** C4 fails on the code: a POST to the login path runs through every
    router to the not-found layer, and no request at all is served by the
    login handler, which no layer mounts. *)
Theorem login_route_unmatched :
  Routing.serve Routing.POST "/api/v1/users/login" = Routing.Unmatched
  /\ forall m path, Routing.serve m path <> Routing.Handler Routing.UserLogin.
Proof. split; [reflexivity|exact login_handler_unreachable]. Qed.


(** * Further properties *)

(** ** Password: malformed and decorated digests *)

Lemma split_nonempty (sep : ascii) (s : string) : split sep s <> [].
Proof.
  destruct s as [|c s]; simpl; [discriminate|].
  destruct (Ascii.eqb c sep); [discriminate|]. destruct (split sep s); discriminate.
Qed.

(** The split has a second component exactly when the separator occurs. *)
Lemma split_second (sep : ascii) (s : string) :
  occurs sep s = true -> exists h s' rest, split sep s = h :: s' :: rest.
Proof.
  induction s as [|c s IH]; simpl; [discriminate|].
  destruct (Ascii.eqb c sep) eqn:E; simpl.
  - intros _. destruct (split sep s) as [|s' rest] eqn:Es.
    + now apply split_nonempty in Es.
    + eauto.
  - intros (h & s' & rest & ->)%IH. eauto.
Qed.

Section PasswordEdges.
Variable scrypt : string -> string -> nat -> list byte.
Variable pepper : string.

Local Abbreviation toHash := (Password.toHash scrypt pepper).
Local Abbreviation compare := (Password.compare scrypt pepper).

(** X1.  [compare] answers for every stored value that holds a dot and
    throws a [TypeError] for every one that holds none, whatever the
    supplied password: a stored value that is not a digest is an error, not
    a refusal. *)
Theorem compare_throws_iff_no_dot (storedPassword suppliedPassword : string) :
  (occurs "." storedPassword = true ->
   exists b, compare storedPassword suppliedPassword = Ok b)
  /\ (occurs "." storedPassword = false ->
      compare storedPassword suppliedPassword
      = Throw (TypeError "The salt argument must be of type string")).
Proof.
  split; intros H; unfold Password.compare.
  - destruct (split_second _ _ H) as (h & s' & rest & ->). simpl. eauto.
  - now rewrite (split_no_sep _ _ H).
Qed.

(** X2.  Only the first two components of the stored value count: text
    after a second dot does not change the answer. *)
Theorem compare_ignores_third_component
    (hashed salt extra suppliedPassword : string) :
  occurs "." hashed = false ->
  occurs "." salt = false ->
  compare (hashed +:+ "." +:+ salt +:+ "." +:+ extra) suppliedPassword
  = compare (hashed +:+ "." +:+ salt) suppliedPassword.
Proof.
  intros Hh Hs. unfold Password.compare.
  change ("." +:+ salt +:+ "." +:+ extra) with (String "." (salt +:+ String "." extra)).
  change ("." +:+ salt) with (String "." salt).
  rewrite !split_app_sep by assumption.
  rewrite (split_no_sep _ _ Hs). reflexivity.
Qed.

(** X3.  Two digests are the same text only if they were made with the
    same random bytes and the same derived bytes: a password hashed under
    two salts gives two digests. *)
Theorem toHash_distinct_salts (rnd rnd' : list byte) (p p' : string) :
  rnd <> rnd' -> toHash rnd p <> toHash rnd' p'.
Proof.
  intros Hne Heq. apply (f_equal (split ".")) in Heq.
  rewrite !split_toHash in Heq. injection Heq as _ Hsalt.
  now apply toString_hex_inj in Hsalt.
Qed.
End PasswordEdges.

Lemma compare_throws_iff_no_dot_witness :
  (exists b, Password.compare sample_kdf "pepper" "ab.cd" "pw" = Ok b)
  /\ Password.compare sample_kdf "pepper" "abcd" "pw"
     = Throw (TypeError "The salt argument must be of type string").
Proof.
  split.
  - exact (proj1 (compare_throws_iff_no_dot sample_kdf "pepper" "ab.cd" "pw") eq_refl).
  - exact (proj2 (compare_throws_iff_no_dot sample_kdf "pepper" "abcd" "pw") eq_refl).
Defined.

Lemma compare_ignores_third_component_witness :
  Password.compare sample_kdf "pepper" "ab.cd.ef" "pw"
  = Password.compare sample_kdf "pepper" "ab.cd" "pw".
Proof.
  exact (compare_ignores_third_component sample_kdf "pepper" "ab" "cd" "ef" "pw"
           eq_refl eq_refl).
Defined.

Lemma toHash_distinct_salts_witness :
  Password.toHash sample_kdf "pepper" sample_rnd "password1"
  <> Password.toHash sample_kdf "pepper" [x00; x00; x00; x00; x00; x00; x00; x00]
       "password1".
Proof.
  apply (toHash_distinct_salts sample_kdf "pepper"). discriminate.
Defined.


(** ** Model writes: what passes through and what never comes out *)

Section WriteProperties.
Context {DB : Type}.
Variable scrypt : string -> string -> nat -> list byte.
Variable pepper : string.
Variable prisma : Prisma.Client DB.

Lemma try_catch_resolves {A} (m : M DB A) (h : exn -> M DB A) (db db' : DB) (a : A) :
  m db = (Ok a, db') -> try_catch m h db = (Ok a, db').
Proof. intros H. unfold try_catch. now rewrite H. Qed.

Lemma try_catch_rejects {A} (m : M DB A) (h : exn -> M DB A) (db db' : DB) (r : exn) :
  try_catch m h db = (Throw r, db') ->
  exists e db1, m db = (Throw e, db1) /\ h e db1 = (Throw r, db').
Proof.
  unfold try_catch. destruct (m db) as [[a|e] db1]; [discriminate|eauto].
Qed.

Lemma user_catch_clause_uncoded {A} (e r : exn) (db db' : DB) :
  UserModel.catch_clause (A := A) e db = (Throw r, db') ->
  error_code r <> Some "P2025" /\ error_code r <> Some "P2002".
Proof.
  unfold UserModel.catch_clause, UserModel.handlePrismaError, bind, lift, throw.
  destruct (decide (error_code e = Some "P2025")) as [H1|H1].
  { rewrite bool_decide_eq_true_2 by exact H1. intros [= <- _]. split; discriminate. }
  rewrite bool_decide_eq_false_2 by exact H1.
  destruct (decide (error_code e = Some "P2002")) as [H2|H2].
  - rewrite bool_decide_eq_true_2 by exact H2.
    destruct e as [| | |pe]; try discriminate H2. unfold target_field.
    destruct (meta pe) as [[[|f fs]|]|]; intros [= <- _]; split; discriminate.
  - rewrite bool_decide_eq_false_2 by exact H2. intros [= <- _]. now split.
Qed.

Lemma meal_catch_clause_uncoded {A} (e r : exn) (db db' : DB) :
  MealModel.catch_clause (A := A) e db = (Throw r, db') ->
  error_code r <> Some "P2025".
Proof.
  unfold MealModel.catch_clause, MealModel.handlePrismaError, bind, lift, throw.
  destruct (decide (error_code e = Some "P2025")) as [H1|H1].
  - rewrite bool_decide_eq_true_2 by exact H1. intros [= <- _]. discriminate.
  - rewrite bool_decide_eq_false_2 by exact H1. now intros [= <- _].
Qed.

(** X4.  Whatever client the user model runs on, a write that the store
    resolves is resolved with the store's row, and a write that is rejected
    is never rejected with an error that carries the code P2025 or P2002:
    those two never reach a caller of [create], [update] or [delete]. *)
Theorem user_writes_hide_store_codes (rnd : list byte) (db db' : DB) :
  (forall userData id data r,
     UserModel.create scrypt pepper prisma rnd userData db = (Throw r, db')
     \/ UserModel.update scrypt pepper prisma rnd id data db = (Throw r, db')
     \/ UserModel.delete prisma id db = (Throw r, db') ->
     error_code r <> Some "P2025" /\ error_code r <> Some "P2002")
  /\ (forall userData user,
        Prisma.user_create prisma (hashed_data scrypt pepper rnd userData) db
        = (Ok user, db') ->
        UserModel.create scrypt pepper prisma rnd userData db = (Ok user, db'))
  /\ (forall id data user,
        Prisma.user_update prisma id (UserModel.updateData scrypt pepper rnd data) db
        = (Ok user, db') ->
        UserModel.update scrypt pepper prisma rnd id data db = (Ok user, db'))
  /\ (forall id user,
        Prisma.user_delete prisma id db = (Ok user, db') ->
        UserModel.delete prisma id db = (Ok tt, db')).
Proof.
  repeat apply conj.
  - intros userData id data r [H|[H|H]];
      apply try_catch_rejects in H as (e & db1 & _ & H);
      exact (user_catch_clause_uncoded _ _ _ _ H).
  - intros userData user H. now apply try_catch_resolves.
  - intros id data user H. now apply try_catch_resolves.
  - intros id user H. apply try_catch_resolves. unfold bind. now rewrite H.
Qed.

(** X5.  The meal model likewise never rejects with the code P2025, and
    resolves with the store's row whenever the store resolves. *)
Theorem meal_writes_hide_not_found_code (db db' : DB) :
  (forall mealData id data r,
     MealModel.create prisma mealData db = (Throw r, db')
     \/ MealModel.updateById prisma id data db = (Throw r, db')
     \/ MealModel.deleteById prisma id db = (Throw r, db') ->
     error_code r <> Some "P2025")
  /\ (forall mealData meal,
        Prisma.meal_create prisma mealData db = (Ok meal, db') ->
        MealModel.create prisma mealData db = (Ok meal, db'))
  /\ (forall id data meal,
        Prisma.meal_update prisma id data db = (Ok meal, db') ->
        MealModel.updateById prisma id data db = (Ok meal, db'))
  /\ (forall id meal,
        Prisma.meal_delete prisma id db = (Ok meal, db') ->
        MealModel.deleteById prisma id db = (Ok tt, db')).
Proof.
  repeat apply conj.
  - intros mealData id data r [H|[H|H]];
      apply try_catch_rejects in H as (e & db1 & _ & H);
      exact (meal_catch_clause_uncoded _ _ _ _ H).
  - intros mealData meal H. now apply try_catch_resolves.
  - intros id data meal H. now apply try_catch_resolves.
  - intros id meal H. apply try_catch_resolves. unfold bind. now rewrite H.
Qed.
End WriteProperties.

Lemma user_writes_hide_store_codes_witness :
  exists r,
    UserModel.delete MemStore.prisma "id-9" sample_db = (Throw r, sample_db)
    /\ error_code r <> Some "P2025" /\ error_code r <> Some "P2002".
Proof.
  eexists. split; [reflexivity|].
  exact (proj1 (user_writes_hide_store_codes sample_kdf "pepper" MemStore.prisma
                  sample_rnd sample_db sample_db)
           (CreateUserData.Build "" "" "" "") "id-9"
           (UpdateUserData.Build None None None None) _
           (or_intror (or_intror eq_refl))).
Defined.

Lemma meal_writes_hide_not_found_code_witness :
  exists r,
    MealModel.deleteById MemStore.prisma "id-9" sample_db = (Throw r, sample_db)
    /\ error_code r <> Some "P2025".
Proof.
  eexists. split; [reflexivity|].
  exact (proj1 (meal_writes_hide_not_found_code MemStore.prisma sample_db sample_db)
           (CreateMealData.Build "" 0 0 0 0 "") "id-9"
           (UpdateMealData.Build None None None None None) _
           (or_intror (or_intror eq_refl))).
Defined.


(** ** The user model on the reference store *)

Lemma find_app_last {A} (f : A -> bool) (l : list A) (x : A) :
  List.find f l = None -> f x = true -> List.find f (l ++ [x]) = Some x.
Proof.
  intros Hl Hx. induction l as [|a l IH]; simpl in *; [now rewrite Hx|].
  destruct (f a); [discriminate|]. now apply IH.
Qed.

Lemma find_existsb_false {A} (f : A -> bool) (l : list A) :
  existsb f l = false -> List.find f l = None.
Proof. rewrite existsb_false_iff. apply find_none_iff. Qed.

Lemma taken_column_None (others : list User.t) (u : User.t) :
  MemStore.taken_column others u = None ->
  existsb (MemStore.user_matches (ById (User.id u))) others = false
  /\ existsb (MemStore.user_matches (ByEmail (User.email u))) others = false
  /\ existsb (MemStore.user_matches (ByPhone (User.phone u))) others = false.
Proof.
  unfold MemStore.taken_column.
  destruct (existsb _ others); [discriminate|].
  destruct (existsb _ others); [discriminate|].
  destruct (existsb _ others); [discriminate|]. auto.
Qed.

(** What a successful insert into the store leaves behind. *)
Lemma store_create_Ok (data : CreateUserData.t) (d d' : MemStore.db) (u : User.t) :
  MemStore.user_create data d = (Ok u, d') ->
  u = User.Build (MemStore.uuid (MemStore.next_id d)) (CreateUserData.email data)
        (CreateUserData.name data) (CreateUserData.phone data)
        (CreateUserData.password data) (MemStore.clock d)
  /\ MemStore.taken_column (MemStore.users d) u = None
  /\ d' = MemStore.tick (MemStore.with_users d (MemStore.users d ++ [u])).
Proof.
  unfold MemStore.user_create.
  destruct (MemStore.taken_column _ _) eqn:E; [discriminate|].
  intros [= <- <-]. auto.
Qed.

Lemma find_user_unfold (w : user_where) (d : MemStore.db) :
  MemStore.find_user w d = List.find (MemStore.user_matches w) (MemStore.users d).
Proof. reflexivity. Qed.

Section StoredUsers.
Variable scrypt : string -> string -> nat -> list byte.
Variable pepper : string.

Local Abbreviation toHash := (Password.toHash scrypt pepper).
Local Abbreviation compare := (Password.compare scrypt pepper).
Local Abbreviation create := (UserModel.create scrypt pepper MemStore.prisma).
Local Abbreviation update := (UserModel.update scrypt pepper MemStore.prisma).

(** X6.  A user created through the model is stored with the digest of the
    password, which verifies against the password given; the row is added
    after the rows there were and is then found by its id, its email and
    its phone. *)
Theorem create_stores_verifying_digest
    (rnd : list byte) (userData : CreateUserData.t) (d d' : MemStore.db) (u : User.t) :
  create rnd userData d = (Ok u, d') ->
  MemStore.users d' = (MemStore.users d ++ [u])%list
  /\ User.email u = CreateUserData.email userData
  /\ User.name u = CreateUserData.name userData
  /\ User.phone u = CreateUserData.phone userData
  /\ User.password u = toHash rnd (CreateUserData.password userData)
  /\ compare (User.password u) (CreateUserData.password userData) = Ok true
  /\ UserModel.findById MemStore.prisma (User.id u) d' = (Ok u, d')
  /\ UserModel.findByEmail MemStore.prisma (CreateUserData.email userData) d'
     = (Ok (Some u), d')
  /\ UserModel.findByPhone MemStore.prisma (CreateUserData.phone userData) d'
     = (Ok (Some u), d').
Proof.
  intros H. apply try_catch_Ok in H; [|intros; apply user_catch_clause_throws].
  apply store_create_Ok in H as (Hu & Htaken & ->).
  apply taken_column_None in Htaken as (Hid & Hemail & Hphone).
  assert (User.email u = CreateUserData.email userData) as He by now subst u.
  assert (User.phone u = CreateUserData.phone userData) as Hp by now subst u.
  assert (User.password u = toHash rnd (CreateUserData.password userData)) as Hpw
    by now subst u.
  repeat apply conj; try (now subst u).
  - rewrite Hpw, compare_toHash. now rewrite bool_decide_eq_true_2.
  - apply user_findById_found. cbn. unfold MemStore.user_findUnique.
    rewrite find_user_unfold. cbn.
    rewrite (find_app_last _ _ u); [reflexivity|now apply find_existsb_false|].
    cbn. apply String.eqb_refl.
  - unfold UserModel.findByEmail. cbn. unfold MemStore.user_findUnique.
    rewrite find_user_unfold. cbn. rewrite <- He.
    rewrite (find_app_last _ _ u); [reflexivity|now apply find_existsb_false|].
    cbn. apply String.eqb_refl.
  - unfold UserModel.findByPhone. cbn. unfold MemStore.user_findUnique.
    rewrite find_user_unfold. cbn. rewrite <- Hp.
    rewrite (find_app_last _ _ u); [reflexivity|now apply find_existsb_false|].
    cbn. apply String.eqb_refl.
Qed.
End StoredUsers.

Lemma create_stores_verifying_digest_witness :
  exists u d',
    UserModel.create sample_kdf "pepper" MemStore.prisma sample_rnd
      (CreateUserData.Build "c@d.com" "C" "3" "password3") sample_db = (Ok u, d')
    /\ Password.compare sample_kdf "pepper" (User.password u) "password3" = Ok true
    /\ UserModel.findById MemStore.prisma (User.id u) d' = (Ok u, d').
Proof.
  eexists _, _. split; [reflexivity|].
  pose proof (create_stores_verifying_digest sample_kdf "pepper" sample_rnd
                (CreateUserData.Build "c@d.com" "C" "3" "password3")
                sample_db _ _ eq_refl) as H.
  split; [apply H|apply H].
Defined.

Lemma find_replaced_other (id id' : string) (u' : User.t) (us : list User.t) :
  id' <> id -> id' <> User.id u' ->
  List.find (MemStore.user_matches (ById id'))
    (map (fun r => if MemStore.user_matches (ById id) r then u' else r) us)
  = List.find (MemStore.user_matches (ById id')) us.
Proof.
  intros Hne Hnew. apply not_eq_sym, String.eqb_neq in Hne.
  apply not_eq_sym, String.eqb_neq in Hnew.
  induction us as [|r us IH]; [reflexivity|].
  cbn [map List.find MemStore.user_matches] in *.
  destruct (String.eqb (User.id r) id) eqn:E.
  - apply String.eqb_eq in E. rewrite Hnew, E, Hne. exact IH.
  - destruct (String.eqb (User.id r) id'); [reflexivity|exact IH].
Qed.

(** A row that was given another id is no longer found under the old one. *)
Lemma find_replaced_gone (id : string) (u' : User.t) (us : list User.t) :
  User.id u' <> id ->
  List.find (MemStore.user_matches (ById id))
    (map (fun r => if MemStore.user_matches (ById id) r then u' else r) us)
  = None.
Proof.
  intros Hne. apply String.eqb_neq in Hne.
  induction us as [|r us IH]; [reflexivity|].
  cbn [map List.find MemStore.user_matches] in *.
  destruct (String.eqb (User.id r) id) eqn:E.
  - rewrite Hne. exact IH.
  - rewrite E. exact IH.
Qed.

Lemma store_update_state (id : string) (data : UserUpdateInput.t)
    (d d' : MemStore.db) (u' : User.t) :
  MemStore.user_update id data d = (Ok u', d') ->
  d' = MemStore.with_users d
         (map (fun r => if MemStore.user_matches (ById id) r then u' else r)
            (MemStore.users d)).
Proof.
  unfold MemStore.user_update.
  destruct (MemStore.find_user (ById id) d); [|discriminate].
  destruct (MemStore.taken_column _ _); [discriminate|].
  now intros [= <- <-].
Qed.

Lemma find_filter_self (id : string) (us : list User.t) :
  List.find (MemStore.user_matches (ById id))
    (List.filter (fun u => negb (MemStore.user_matches (ById id) u)) us) = None.
Proof.
  induction us as [|r us IH]; [reflexivity|].
  cbn [List.filter List.find MemStore.user_matches negb] in *.
  destruct (String.eqb (User.id r) id) eqn:E; cbn [negb List.find MemStore.user_matches].
  - exact IH.
  - rewrite E. exact IH.
Qed.

Lemma find_filter_other (id id' : string) (us : list User.t) :
  id' <> id ->
  List.find (MemStore.user_matches (ById id'))
    (List.filter (fun u => negb (MemStore.user_matches (ById id) u)) us)
  = List.find (MemStore.user_matches (ById id')) us.
Proof.
  intros Hne. apply not_eq_sym, String.eqb_neq in Hne.
  induction us as [|r us IH]; [reflexivity|].
  cbn [List.filter List.find MemStore.user_matches negb] in *.
  destruct (String.eqb (User.id r) id) eqn:E; cbn [negb List.find MemStore.user_matches].
  - apply String.eqb_eq in E. rewrite E, Hne. exact IH.
  - destruct (String.eqb (User.id r) id'); [reflexivity|exact IH].
Qed.

Section StoredUpdates.
Variable scrypt : string -> string -> nat -> list byte.
Variable pepper : string.

Local Abbreviation compare := (Password.compare scrypt pepper).
Local Abbreviation update := (UserModel.update scrypt pepper MemStore.prisma).

Lemma updateData_other_fields (rnd : list byte) (data : UserUpdateInput.t) :
  UserUpdateInput.id (UserModel.updateData scrypt pepper rnd data)
  = UserUpdateInput.id data
  /\ UserUpdateInput.email (UserModel.updateData scrypt pepper rnd data)
     = UserUpdateInput.email data
  /\ UserUpdateInput.name (UserModel.updateData scrypt pepper rnd data)
     = UserUpdateInput.name data
  /\ UserUpdateInput.phone (UserModel.updateData scrypt pepper rnd data)
     = UserUpdateInput.phone data
  /\ UserUpdateInput.createdAt (UserModel.updateData scrypt pepper rnd data)
     = UserUpdateInput.createdAt data.
Proof. unfold UserModel.updateData. destruct (UserModel.truthy _); auto. Qed.

(** X7.  An update that resolves changed the row of that id and nothing
    else.  Each column of the row, [id] and [createdAt] included, is the
    value the payload names or else the old one, the password apart: a
    payload without password leaves the stored digest alone, and a
    non-empty new password verifies against what is stored afterwards.
    The row is then found under the id it now has, and no longer under the
    old one if the payload named another; every other row and every meal
    is as before. *)
Theorem update_changes_only_what_was_supplied
    (rnd : list byte) (id : string) (data : UserUpdateInput.t)
    (d d' : MemStore.db) (u : User.t) :
  update rnd id data d = (Ok u, d') ->
  exists old,
    MemStore.find_user (ById id) d = Some old
    /\ User.id u = default id (UserUpdateInput.id data)
    /\ User.createdAt u = default (User.createdAt old) (UserUpdateInput.createdAt data)
    /\ User.email u = default (User.email old) (UserUpdateInput.email data)
    /\ User.name u = default (User.name old) (UserUpdateInput.name data)
    /\ User.phone u = default (User.phone old) (UserUpdateInput.phone data)
    /\ (UserUpdateInput.password data = None -> User.password u = User.password old)
    /\ (forall p, UserUpdateInput.password data = Some p -> p <> "" ->
          compare (User.password u) p = Ok true)
    /\ MemStore.find_user (ById (User.id u)) d' = Some u
    /\ (User.id u <> id -> MemStore.find_user (ById id) d' = None)
    /\ (forall id', id' <> id -> id' <> User.id u ->
          MemStore.find_user (ById id') d' = MemStore.find_user (ById id') d)
    /\ MemStore.meals d' = MemStore.meals d.
Proof.
  intros H. apply try_catch_Ok in H; [|intros; apply user_catch_clause_throws].
  pose proof (store_update_state _ _ _ _ _ H) as Hd'.
  apply store_update_Ok in H as (old & Hold & Hid & Hu & Hfound).
  destruct (updateData_other_fields rnd data) as (Hi & He & Hn & Hp & Hc).
  exists old. split; [exact Hold|].
  split; [subst u; cbn; now rewrite Hi, Hid|].
  split; [subst u; cbn; now rewrite Hc|].
  split; [subst u; cbn; now rewrite He|].
  split; [subst u; cbn; now rewrite Hn|].
  split; [subst u; cbn; now rewrite Hp|].
  split.
  { intros Hnone. subst u. unfold UserModel.updateData. rewrite Hnone. cbn.
    now rewrite Hnone. }
  split.
  { intros p Hsome Hne. subst u. unfold UserModel.updateData.
    rewrite Hsome, (truthy_nonempty p Hne). cbn.
    rewrite compare_toHash. now rewrite bool_decide_eq_true_2. }
  split; [exact Hfound|].
  split.
  { intros Hne. rewrite Hd', find_user_unfold. cbn [MemStore.users MemStore.with_users].
    now apply find_replaced_gone. }
  split.
  { intros id' Hne Hnew. rewrite Hd', !find_user_unfold.
    cbn [MemStore.users MemStore.with_users].
    now apply find_replaced_other. }
  now rewrite Hd'.
Qed.
End StoredUpdates.

Lemma update_changes_only_what_was_supplied_witness :
  exists u d' old,
    UserModel.update sample_kdf "pepper" MemStore.prisma sample_rnd "id-0"
      (UserUpdateInput.Make (Some "id-7") None (Some "Alice") None
         (Some "password2") None) sample_db
    = (Ok u, d')
    /\ MemStore.find_user (ById "id-0") sample_db = Some old
    /\ User.id u = "id-7" /\ User.name u = "Alice" /\ User.email u = User.email old
    /\ Password.compare sample_kdf "pepper" (User.password u) "password2" = Ok true
    /\ MemStore.find_user (ById "id-0") d' = None.
Proof.
  destruct (update_changes_only_what_was_supplied sample_kdf "pepper" sample_rnd "id-0"
              (UserUpdateInput.Make (Some "id-7") None (Some "Alice") None
                 (Some "password2") None)
              sample_db _ _ eq_refl)
    as (old & Hold & Hid & _ & He & Hn & _ & _ & Hpw & _ & Hgone & _).
  eexists _, _, old. split; [reflexivity|]. split; [exact Hold|].
  split; [exact Hid|]. split; [exact Hn|]. split; [exact He|].
  split; [apply Hpw; [reflexivity|discriminate]|].
  apply Hgone. discriminate.
Defined.

(** X8.  Deleting through the model resolves when a row has the id and
    then leaves no row with it, so that finding it by id is [NotFound],
    while every other row stays found and the meals are untouched; when no
    row has the id it rejects with [NotFound] and changes nothing. *)
Theorem delete_removes_the_row (id : string) (d : MemStore.db) :
  ((exists u, In u (MemStore.users d) /\ User.id u = id) ->
   exists d', UserModel.delete MemStore.prisma id d = (Ok tt, d'))
  /\ (forall d',
        UserModel.delete MemStore.prisma id d = (Ok tt, d') ->
        UserModel.findById MemStore.prisma id d' = (Throw (NotFound "User not found"), d')
        /\ (forall id', id' <> id ->
              MemStore.find_user (ById id') d' = MemStore.find_user (ById id') d)
        /\ MemStore.meals d' = MemStore.meals d)
  /\ ((forall u, In u (MemStore.users d) -> User.id u <> id) ->
      UserModel.delete MemStore.prisma id d = (Throw (NotFound "User not found"), d)).
Proof.
  repeat apply conj.
  - intros (u & Hin & Hid).
    destruct (MemStore.find_user (ById id) d) as [found|] eqn:E.
    + eexists. unfold UserModel.delete, try_catch, bind. cbn.
      unfold MemStore.user_delete. rewrite E. reflexivity.
    + pose proof (proj1 (find_none_iff _ _) E u Hin) as Hf. cbn in Hf.
      apply String.eqb_neq in Hf. contradiction.
  - intros d' H. unfold UserModel.delete, try_catch, bind in H. cbn in H.
    unfold MemStore.user_delete in H.
    destruct (MemStore.find_user (ById id) d) as [found|] eqn:E; [|discriminate H].
    cbn in H. injection H as <-. repeat apply conj.
    + apply user_findById_missing. cbn. unfold MemStore.user_findUnique.
      rewrite find_user_unfold. cbn. unfold MemStore.other_users.
      now rewrite find_filter_self.
    + intros id' Hne. rewrite !find_user_unfold. cbn. unfold MemStore.other_users.
      now apply find_filter_other.
    + reflexivity.
  - intros Hnone. unfold UserModel.delete, try_catch, bind. cbn.
    unfold MemStore.user_delete, MemStore.find_user.
    rewrite (proj2 (find_none_iff _ _)); [reflexivity|].
    intros u Hin. cbn. apply String.eqb_neq. now apply Hnone.
Qed.


(** ** The meal model on the reference store *)

Lemma existsb_eqb_In (x : string) (l : list string) :
  existsb (String.eqb x) l = true <-> In x l.
Proof.
  rewrite existsb_exists. split.
  - intros (y & Hin & ->%String.eqb_eq). exact Hin.
  - intros Hin. exists x. split; [exact Hin|apply String.eqb_refl].
Qed.







Example meal_examples :
  (exists meal d',
     MealModel.create MemStore.prisma
       (CreateMealData.Build "Soup" 120 10 5 3 "plan123") sample_db = (Ok meal, d')
     /\ Meal.id meal = "id-2")
  /\ MealModel.create MemStore.prisma
       (CreateMealData.Build "Soup" 120 10 5 3 "plan999") sample_db
     = (Throw MemStore.foreign_key_violation, sample_db)
  /\ (exists meal d',
        MealModel.updateById MemStore.prisma "id-1"
          (UpdateMealData.Build (Some "Updated Meal") None None None None) sample_db
        = (Ok meal, d')
        /\ Meal.name meal = "Updated Meal" /\ Meal.calories meal = 350%Z)
  /\ (exists d', MealModel.deleteById MemStore.prisma "id-1" sample_db = (Ok tt, d')).
Proof. repeat split; eexists _, _ || eexists; repeat split. Qed.


(** ** The schema's constraints as invariants of the model writes *)

Lemma user_try_catch_state {A} (m : M MemStore.db A) (d : MemStore.db) :
  (try_catch m UserModel.catch_clause d).2 = (m d).2.
Proof.
  unfold try_catch, UserModel.catch_clause, bind, lift, throw.
  destruct (m d) as [[a|e] d1]; [reflexivity|].
  destruct (UserModel.handlePrismaError e); reflexivity.
Qed.

Lemma meal_try_catch_state {A} (m : M MemStore.db A) (d : MemStore.db) :
  (try_catch m MealModel.catch_clause d).2 = (m d).2.
Proof.
  unfold try_catch, MealModel.catch_clause, bind, lift, throw.
  destruct (m d) as [[a|e] d1]; [reflexivity|].
  destruct (MealModel.handlePrismaError e); reflexivity.
Qed.

Lemma NoDup_map_snoc {A} (f : A -> string) (l : list A) (x : A) :
  NoDup (map f l) -> (forall y, In y l -> f y <> f x) -> NoDup (map f (l ++ [x])).
Proof.
  induction l as [|a l IH]; cbn [map app].
  - intros _ _. apply NoDup_singleton.
  - rewrite !NoDup_cons, !list_elem_of_In. intros [Ha Hl] Hx. split.
    + rewrite map_app. intros [Hin|[Heq|[]]]%in_app_or; [now apply Ha|].
      apply (Hx a); [now left|now symmetry].
    + apply IH; [exact Hl|]. intros y Hy. apply Hx. now right.
Qed.

Lemma NoDup_map_filter {A} (f : A -> string) (p : A -> bool) (l : list A) :
  NoDup (map f l) -> NoDup (map f (List.filter p l)).
Proof.
  induction l as [|a l IH]; [trivial|]. cbn [map List.filter].
  rewrite NoDup_cons, list_elem_of_In. intros [Ha Hl].
  destruct (p a); [|now apply IH].
  cbn [map]. rewrite NoDup_cons, list_elem_of_In. split; [|now apply IH].
  intros (y & Hy & [Hin _]%filter_In)%in_map_iff. apply Ha, in_map_iff. eauto.
Qed.

(** Replacing the row of an id, among rows whose ids differ pairwise, keeps
    a column free of repeats when no other row holds the new value. *)
Lemma NoDup_map_replace (f : User.t -> string) (id : string) (u' : User.t)
    (l : list User.t) :
  NoDup (map User.id l) ->
  NoDup (map f l) ->
  (forall r, In r l -> User.id r <> id -> f r <> f u') ->
  NoDup (map f (map (fun r => if MemStore.user_matches (ById id) r then u' else r) l)).
Proof.
  induction l as [|a l IH]; [intros; apply NoDup_nil_2|].
  cbn [map MemStore.user_matches].
  rewrite !NoDup_cons, !list_elem_of_In. intros [Hida Hidl] [Hfa Hfl] Hother.
  assert (NoDup (map f (map (fun r => if String.eqb (User.id r) id then u' else r) l)))
    as Hrest.
  { apply IH; [exact Hidl|exact Hfl|]. intros r Hr. apply Hother. now right. }
  split; [|exact Hrest].
  intros (y & Hy & (r & Hr & Hin)%in_map_iff)%in_map_iff.
  destruct (String.eqb (User.id a) id) eqn:Ea.
  - apply String.eqb_eq in Ea.
    destruct (String.eqb (User.id r) id) eqn:Er.
    + apply String.eqb_eq in Er. apply Hida, in_map_iff. exists r. split; [congruence|exact Hin].
    + subst y. apply String.eqb_neq in Er.
      apply (Hother r); [now right|exact Er|exact Hy].
  - apply String.eqb_neq in Ea.
    destruct (String.eqb (User.id r) id) eqn:Er.
    + subst y. apply (Hother a); [now left|exact Ea|now symmetry].
    + subst y. apply Hfa, in_map_iff. eauto.
Qed.

Lemma existsb_matches_false (w : user_where) (l : list User.t) :
  existsb (MemStore.user_matches w) l = false ->
  forall r, In r l -> MemStore.user_matches w r = false.
Proof. apply existsb_false_iff. Qed.

Section Invariants.
Variable scrypt : string -> string -> nat -> list byte.
Variable pepper : string.

(** X11.  The model's writes keep the unique columns unique: from a store
    in which no two users share an id, an email or a phone, [create],
    [update] and [delete] lead, resolved or rejected, to such a store. *)
Theorem user_writes_keep_columns_unique
    (rnd : list byte) (userData : CreateUserData.t) (id : string)
    (data : UserUpdateInput.t) (d : MemStore.db) :
  unique_users d ->
  unique_users (UserModel.create scrypt pepper MemStore.prisma rnd userData d).2
  /\ unique_users (UserModel.update scrypt pepper MemStore.prisma rnd id data d).2
  /\ unique_users (UserModel.delete MemStore.prisma id d).2.
Proof.
  intros (Hid & Hemail & Hphone). split; [|split].
  - unfold UserModel.create. rewrite user_try_catch_state.
    cbn [Prisma.user_create MemStore.prisma]. unfold MemStore.user_create.
    destruct (MemStore.taken_column _ _) eqn:E; [now repeat split|].
    apply taken_column_None in E as (E1 & E2 & E3).
    pose proof (existsb_matches_false _ _ E1) as F1.
    pose proof (existsb_matches_false _ _ E2) as F2.
    pose proof (existsb_matches_false _ _ E3) as F3.
    unfold unique_users. cbn [snd MemStore.users MemStore.tick MemStore.with_users].
    repeat apply conj; apply NoDup_map_snoc; try assumption;
      intros y Hy; apply String.eqb_neq;
      first [apply (F1 y Hy)|apply (F2 y Hy)|apply (F3 y Hy)].
  - unfold UserModel.update. rewrite user_try_catch_state.
    cbn [Prisma.user_update MemStore.prisma]. unfold MemStore.user_update.
    destruct (MemStore.find_user (ById id) d) as [old|] eqn:Eold; [|now repeat split].
    destruct (MemStore.taken_column _ _) eqn:E; [now repeat split|].
    apply taken_column_None in E as (E1 & E2 & E3).
    pose proof (existsb_matches_false _ _ E1) as F1.
    pose proof (existsb_matches_false _ _ E2) as F2.
    pose proof (existsb_matches_false _ _ E3) as F3.
    unfold unique_users. cbn [snd MemStore.users MemStore.with_users].
    repeat apply conj.
    + apply NoDup_map_replace; [exact Hid|exact Hid|].
      intros r Hr Hne. apply String.eqb_neq. apply F1.
      unfold MemStore.other_users. apply filter_In. split; [exact Hr|].
      cbn. apply negb_true_iff. now apply String.eqb_neq.
    + apply NoDup_map_replace; [exact Hid|exact Hemail|].
      intros r Hr Hne. apply String.eqb_neq. apply F2.
      unfold MemStore.other_users. apply filter_In. split; [exact Hr|].
      cbn. apply negb_true_iff. now apply String.eqb_neq.
    + apply NoDup_map_replace; [exact Hid|exact Hphone|].
      intros r Hr Hne. apply String.eqb_neq. apply F3.
      unfold MemStore.other_users. apply filter_In. split; [exact Hr|].
      cbn. apply negb_true_iff. now apply String.eqb_neq.
  - unfold UserModel.delete. rewrite user_try_catch_state. unfold bind.
    cbn [Prisma.user_delete MemStore.prisma]. unfold MemStore.user_delete.
    destruct (MemStore.find_user (ById id) d) as [old|]; [|now repeat split].
    unfold unique_users, MemStore.other_users.
    cbn [snd ret MemStore.users MemStore.with_users].
    repeat apply conj; now apply NoDup_map_filter.
Qed.
End Invariants.

(** X12.  The meal model's writes keep every meal under a plan that is
    there, and leave the plans and the users alone: a meal is only created
    under an existing plan, and an update cannot move it to another. *)
Theorem meal_writes_keep_plan_reference
    (mealData : CreateMealData.t) (id : string) (data : UpdateMealData.t)
    (d : MemStore.db) :
  meals_reference_plans d ->
  (meals_reference_plans (MealModel.create MemStore.prisma mealData d).2
   /\ MemStore.plans (MealModel.create MemStore.prisma mealData d).2 = MemStore.plans d
   /\ MemStore.users (MealModel.create MemStore.prisma mealData d).2 = MemStore.users d)
  /\ (meals_reference_plans (MealModel.updateById MemStore.prisma id data d).2
      /\ MemStore.plans (MealModel.updateById MemStore.prisma id data d).2
         = MemStore.plans d
      /\ MemStore.users (MealModel.updateById MemStore.prisma id data d).2
         = MemStore.users d)
  /\ (meals_reference_plans (MealModel.deleteById MemStore.prisma id d).2
      /\ MemStore.plans (MealModel.deleteById MemStore.prisma id d).2 = MemStore.plans d
      /\ MemStore.users (MealModel.deleteById MemStore.prisma id d).2 = MemStore.users d).
Proof.
  intros Hinv. repeat apply conj.
  1-3: unfold MealModel.create; rewrite meal_try_catch_state;
       cbn [Prisma.meal_create MemStore.prisma]; unfold MemStore.meal_create;
       destruct (existsb _ (MemStore.plans d)) eqn:Eplan; cbn [negb]; try easy;
       destruct (existsb _ (MemStore.meals d)); try easy.
  - intros meal [Hin|[<-|[]]]%in_app_or; [now apply Hinv|].
    cbn. now apply existsb_eqb_In.
  - unfold MealModel.updateById. rewrite meal_try_catch_state.
    cbn [Prisma.meal_update MemStore.prisma]. unfold MemStore.meal_update.
    destruct (MemStore.find_meal id d) as [old|] eqn:E; [|exact Hinv].
    intros meal (r & Hr & Hin)%in_map_iff. cbn [snd MemStore.plans MemStore.with_meals].
    destruct (MemStore.meal_has_id id r); [|subst; now apply Hinv].
    subst meal. cbn. apply Hinv. now apply find_some in E as [E _].
  - unfold MealModel.updateById. rewrite meal_try_catch_state.
    cbn [Prisma.meal_update MemStore.prisma]. unfold MemStore.meal_update.
    now destruct (MemStore.find_meal id d).
  - unfold MealModel.updateById. rewrite meal_try_catch_state.
    cbn [Prisma.meal_update MemStore.prisma]. unfold MemStore.meal_update.
    now destruct (MemStore.find_meal id d).
  - unfold MealModel.deleteById. rewrite meal_try_catch_state. unfold bind.
    cbn [Prisma.meal_delete MemStore.prisma]. unfold MemStore.meal_delete.
    destruct (MemStore.find_meal id d) as [old|]; [|exact Hinv].
    intros meal [Hin _]%filter_In. now apply Hinv.
  - unfold MealModel.deleteById. rewrite meal_try_catch_state. unfold bind.
    cbn [Prisma.meal_delete MemStore.prisma]. unfold MemStore.meal_delete.
    now destruct (MemStore.find_meal id d).
  - unfold MealModel.deleteById. rewrite meal_try_catch_state. unfold bind.
    cbn [Prisma.meal_delete MemStore.prisma]. unfold MemStore.meal_delete.
    now destruct (MemStore.find_meal id d).
Qed.

Lemma sample_db_unique : unique_users sample_db.
Proof. repeat split; apply NoDup_singleton. Qed.

Lemma user_writes_keep_columns_unique_witness :
  unique_users
    (UserModel.create sample_kdf "pepper" MemStore.prisma sample_rnd
       (CreateUserData.Build "c@d.com" "C" "3" "password3") sample_db).2
  /\ unique_users
       (UserModel.update sample_kdf "pepper" MemStore.prisma sample_rnd "id-0"
          (UpdateUserData.Build (Some "z@b.com") None None None) sample_db).2.
Proof.
  split;
    apply (user_writes_keep_columns_unique sample_kdf "pepper" sample_rnd
             (CreateUserData.Build "c@d.com" "C" "3" "password3") "id-0"
             (UpdateUserData.Build (Some "z@b.com") None None None)
             sample_db sample_db_unique).
Defined.

Lemma sample_db_references : meals_reference_plans sample_db.
Proof. intros meal [<-|[]]. now left. Qed.

Lemma meal_writes_keep_plan_reference_witness :
  meals_reference_plans
    (MealModel.create MemStore.prisma
       (CreateMealData.Build "Soup" 120 10 5 3 "plan123") sample_db).2.
Proof.
  apply (meal_writes_keep_plan_reference
           (CreateMealData.Build "Soup" 120 10 5 3 "plan123") "id-1"
           (UpdateMealData.Build None None None None None)
           sample_db sample_db_references).
Defined.

(** ** Handlers: status, representation, and the check before a write *)

Lemma rest_represents (user : User.t) : represents (rest_without_password user) user.
Proof.
  unfold represents, rest_without_password, user_object.
  repeat apply conj; try reflexivity.
  intros k Hk. cbn in Hk.
  destruct (decide (k = "password")) as [->|Hpw]; [apply lookup_delete_eq|].
  rewrite lookup_delete_ne by congruence.
  repeat (rewrite lookup_insert_ne by (intros <-; apply Hk; tauto)).
  apply lookup_empty.
Qed.

Section HandlerShapes.
Context {DB : Type}.
Variable scrypt : string -> string -> nat -> list byte.
Variable pepper : string.
Variable prisma : Prisma.Client DB.
Variable UserModel_login : string -> string -> M DB User.t.

Local Abbreviation handle := (UserController.handle scrypt pepper prisma UserModel_login).

(** X13.  A handler that answers sends the status of its operation: 201
    with an object for a registration, 200 with an object for login, get by
    id and update, 200 with an array for get all, 204 with no body for a
    deletion. *)
Theorem handler_status_and_body (req : UserController.request) (db db' : DB)
    (res : response) :
  handle req db = (Ok res, db') ->
  match req with
  | UserController.Register _ _ => status res = 201 /\ exists o, body res = Json o
  | UserController.Login _ _ | UserController.GetById _ | UserController.Update _ _ _ =>
      status res = 200 /\ exists o, body res = Json o
  | UserController.GetAll => status res = 200 /\ exists l, body res = JsonArray l
  | UserController.Delete _ => status res = 204 /\ body res = NoBody
  end.
Proof.
  destruct req; simpl; intros H.
  - unfold UserController.register in H. invert_binds.
    match goal with H : (if ?x is Some _ then _ else _) _ = _ |- _ => destruct x end;
      invert_binds. simpl. eauto.
  - unfold UserController.login in H. invert_binds. simpl. eauto.
  - unfold UserController.getById in H. invert_binds. simpl. eauto.
  - unfold UserController.getAll in H. invert_binds. simpl. eauto.
  - unfold UserController.update in H. invert_binds. simpl. eauto.
  - unfold UserController.delete in H. invert_binds. simpl. eauto.
Qed.

(** X14.  What get by id and get all send is the rows the model returned,
    each as its five public properties and nothing else, the rows of get
    all one for one and in the model's order. *)
Theorem responses_represent_rows (db db' : DB) :
  (forall id user,
     UserModel.findById prisma id db = (Ok user, db') ->
     exists o, UserController.getById prisma id db = (Ok (Response 200 (Json o)), db')
               /\ represents o user)
  /\ (forall users,
        UserModel.findAll prisma db = (Ok users, db') ->
        exists l, UserController.getAll prisma db = (Ok (Response 200 (JsonArray l)), db')
                  /\ Forall2 represents l users).
Proof.
  split.
  - intros id user H. exists (rest_without_password user). split; [|apply rest_represents].
    unfold UserController.getById, bind. now rewrite H.
  - intros users H. exists (map rest_without_password users). split.
    + unfold UserController.getAll, bind. now rewrite H.
    + clear H. induction users as [|u us IH]; constructor; [apply rest_represents|exact IH].
Qed.

(** X15.  Update and delete look the id up first: for an id the lookup does
    not find, either handler rejects with [NotFound] in the state the
    lookup left, before any write is asked of the store. *)
Theorem handlers_check_before_write
    (rnd : list byte) (id : string) (updateData : UserUpdateInput.t) (db db' : DB) :
  Prisma.user_findUnique prisma (ById id) db = (Ok None, db') ->
  UserController.update scrypt pepper prisma rnd id updateData db
  = (Throw (NotFound "User not found"), db')
  /\ UserController.delete prisma id db = (Throw (NotFound "User not found"), db').
Proof.
  intros H. apply user_findById_missing in H.
  unfold UserController.update, UserController.delete, bind. now rewrite H.
Qed.
End HandlerShapes.

Lemma handler_status_and_body_witness :
  status (Response 200 (Json (rest_without_password alice))) = 200
  /\ exists o, body (Response 200 (Json (rest_without_password alice))) = Json o.
Proof.
  exact (handler_status_and_body sample_kdf "pepper" MemStore.prisma
           (UserModel.login sample_kdf "pepper" MemStore.prisma)
           (UserController.GetById "id-0") sample_db sample_db
           (Response 200 (Json (rest_without_password alice))) eq_refl).
Defined.

Lemma responses_represent_rows_witness :
  exists o, UserController.getById MemStore.prisma "id-0" sample_db
            = (Ok (Response 200 (Json o)), sample_db)
            /\ represents o alice.
Proof.
  exact (proj1 (responses_represent_rows MemStore.prisma sample_db sample_db)
           "id-0" alice eq_refl).
Defined.

Lemma handlers_check_before_write_witness :
  UserController.update sample_kdf "pepper" MemStore.prisma sample_rnd "id-9"
    (UpdateUserData.Build None (Some "X") None None) sample_db
  = (Throw (NotFound "User not found"), sample_db)
  /\ UserController.delete MemStore.prisma "id-9" sample_db
     = (Throw (NotFound "User not found"), sample_db).
Proof.
  exact (handlers_check_before_write sample_kdf "pepper" MemStore.prisma sample_rnd
           "id-9" (UpdateUserData.Build None (Some "X") None None)
           sample_db sample_db eq_refl).
Defined.


(** ** Register, get, delete, get *)

Lemma filter_keeps_all {A} (p : A -> bool) (l : list A) :
  (forall x, In x l -> p x = true) -> List.filter p l = l.
Proof.
  induction l as [|a l IH]; [reflexivity|]. intros H. cbn [List.filter].
  rewrite (H a (or_introl eq_refl)), IH; [reflexivity|].
  intros x Hx. apply H. now right.
Qed.

Lemma taken_column_fresh (others : list User.t) (u : User.t) :
  (forall r, In r others -> User.id r <> User.id u) ->
  (forall r, In r others -> User.email r <> User.email u) ->
  (forall r, In r others -> User.phone r <> User.phone u) ->
  MemStore.taken_column others u = None.
Proof.
  intros Hid Hemail Hphone. unfold MemStore.taken_column.
  rewrite (proj2 (existsb_false_iff _ _)).
  2:{ intros r Hr. cbn. apply String.eqb_neq. now apply Hid. }
  rewrite (proj2 (existsb_false_iff _ _)).
  2:{ intros r Hr. cbn. apply String.eqb_neq. now apply Hemail. }
  rewrite (proj2 (existsb_false_iff _ _)); [reflexivity|].
  intros r Hr. cbn. apply String.eqb_neq. now apply Hphone.
Qed.

Section EndToEnd.
Variable scrypt : string -> string -> nat -> list byte.
Variable pepper : string.

(** X16.  On a store where the email and the phone of the payload are free
    (and the next id unused), registration answers 201 with the new user;
    getting that id then answers 200 with the same representation;
    deleting it answers 204; getting it again is [NotFound]; and the rows
    of the store are then the rows it started with. *)
Theorem register_get_delete_get
    (rnd : list byte) (body : CreateUserData.t) (d : MemStore.db) :
  (forall r, In r (MemStore.users d) -> User.id r <> MemStore.uuid (MemStore.next_id d)) ->
  (forall r, In r (MemStore.users d) -> User.email r <> CreateUserData.email body) ->
  (forall r, In r (MemStore.users d) -> User.phone r <> CreateUserData.phone body) ->
  exists user d1 d2,
    UserController.register scrypt pepper MemStore.prisma rnd body d
    = (Ok (Response 201 (Json (rest_without_password user))), d1)
    /\ User.id user = MemStore.uuid (MemStore.next_id d)
    /\ User.email user = CreateUserData.email body
    /\ UserController.getById MemStore.prisma (User.id user) d1
       = (Ok (Response 200 (Json (rest_without_password user))), d1)
    /\ UserController.delete MemStore.prisma (User.id user) d1
       = (Ok (Response 204 NoBody), d2)
    /\ UserController.getById MemStore.prisma (User.id user) d2
       = (Throw (NotFound "User not found"), d2)
    /\ MemStore.users d2 = MemStore.users d.
Proof.
  intros Hid Hemail Hphone.
  set (id := MemStore.uuid (MemStore.next_id d)) in *.
  set (u := User.Build id (CreateUserData.email body) (CreateUserData.name body)
              (CreateUserData.phone body)
              (Password.toHash scrypt pepper rnd (CreateUserData.password body))
              (MemStore.clock d)).
  set (d1 := MemStore.tick (MemStore.with_users d (MemStore.users d ++ [u]))).
  set (d2 := MemStore.with_users d1 (MemStore.users d)).
  assert (List.find (MemStore.user_matches (ById id)) (MemStore.users d) = None) as Hnone.
  { apply find_none_iff. intros r Hr. cbn. apply String.eqb_neq. now apply Hid. }
  assert (MemStore.find_user (ByEmail (CreateUserData.email body)) d = None) as Hfree.
  { apply find_none_iff. intros r Hr. cbn. apply String.eqb_neq. now apply Hemail. }
  assert (MemStore.user_create (hashed_data scrypt pepper rnd body) d = (Ok u, d1))
    as Hcreate.
  { unfold MemStore.user_create. cbn [hashed_data CreateUserData.email
      CreateUserData.name CreateUserData.phone CreateUserData.password].
    fold id. fold u. rewrite (taken_column_fresh _ u); [reflexivity|..]; assumption. }
  assert (MemStore.find_user (ById id) d1 = Some u) as Hfound.
  { rewrite find_user_unfold. cbn [d1 MemStore.users MemStore.tick MemStore.with_users].
    apply find_app_last; [exact Hnone|cbn; apply String.eqb_refl]. }
  assert (MemStore.other_users id d1 = MemStore.users d) as Hothers.
  { unfold MemStore.other_users.
    cbn [d1 MemStore.users MemStore.tick MemStore.with_users].
    rewrite List.filter_app. cbn [List.filter MemStore.user_matches User.id u].
    rewrite String.eqb_refl. cbn [negb]. rewrite app_nil_r.
    apply filter_keeps_all. intros r Hr. cbn. apply negb_true_iff, String.eqb_neq.
    now apply Hid. }
  exists u, d1, d2. repeat apply conj; try reflexivity.
  - unfold UserController.register, UserModel.findByEmail, bind.
    cbn [Prisma.user_findUnique MemStore.prisma]. unfold MemStore.user_findUnique.
    rewrite Hfree. unfold UserModel.create, try_catch.
    cbn [Prisma.user_create MemStore.prisma CreateUserData.email CreateUserData.name
         CreateUserData.phone CreateUserData.password].
    unfold hashed_data in Hcreate. now rewrite Hcreate.
  - unfold UserController.getById, UserModel.findById, bind.
    cbn [Prisma.user_findUnique MemStore.prisma User.id u].
    unfold MemStore.user_findUnique. now rewrite Hfound.
  - unfold UserController.delete, UserModel.findById, UserModel.delete, try_catch, bind.
    cbn [Prisma.user_findUnique Prisma.user_delete MemStore.prisma User.id u].
    unfold MemStore.user_findUnique, MemStore.user_delete.
    rewrite Hfound. unfold ret at 1. cbv beta iota.
    rewrite Hfound, Hothers. reflexivity.
  - unfold UserController.getById, UserModel.findById, bind.
    cbn [Prisma.user_findUnique MemStore.prisma User.id u].
    unfold MemStore.user_findUnique. rewrite find_user_unfold.
    cbn [d2 MemStore.users MemStore.with_users]. now rewrite Hnone.
Qed.
End EndToEnd.

Lemma register_get_delete_get_witness :
  exists user d1 d2,
    UserController.register sample_kdf "pepper" MemStore.prisma sample_rnd
      (CreateUserData.Build "c@d.com" "C" "3" "password3") sample_db
    = (Ok (Response 201 (Json (rest_without_password user))), d1)
    /\ User.id user = "id-2"
    /\ UserController.delete MemStore.prisma (User.id user) d1
       = (Ok (Response 204 NoBody), d2)
    /\ MemStore.users d2 = [alice].
Proof.
  destruct (register_get_delete_get sample_kdf "pepper" sample_rnd
              (CreateUserData.Build "c@d.com" "C" "3" "password3") sample_db)
    as (user & d1 & d2 & H1 & H2 & _ & _ & H5 & _ & H7).
  - intros r [<-|[]]. discriminate.
  - intros r [<-|[]]. discriminate.
  - intros r [<-|[]]. discriminate.
  - exists user, d1, d2. auto.
Defined.


(** ** Routes with an id *)






(** ** The client singleton *)

Lemma getInstances_set (calls : nat) (client constructed : N) :
  PrismaClientSingleton.getInstances calls
    (PrismaClientSingleton.State (Some client) constructed)
  = (repeat client calls, PrismaClientSingleton.State (Some client) constructed).
Proof.
  induction calls as [|calls IH]; [reflexivity|].
  cbn [PrismaClientSingleton.getInstances PrismaClientSingleton.getInstance
       PrismaClientSingleton.instance repeat].
  now rewrite IH.
Qed.

(** X19.  However often [getInstance] is called, every call returns one
    and the same client, and at most one client is constructed: none when
    the instance was set before, one when it was not. *)
Theorem getInstance_one_client (calls : nat) (s : PrismaClientSingleton.state) :
  exists client,
    (PrismaClientSingleton.getInstances calls s).1 = repeat client calls
    /\ (forall c, PrismaClientSingleton.instance s = Some c -> client = c)
    /\ PrismaClientSingleton.constructed (PrismaClientSingleton.getInstances calls s).2
       = match PrismaClientSingleton.instance s, calls with
         | None, S _ => N.succ (PrismaClientSingleton.constructed s)
         | _, _ => PrismaClientSingleton.constructed s
         end.
Proof.
  destruct s as [[c|] n].
  - exists c. rewrite getInstances_set. cbn. split; [reflexivity|]. split.
    + now intros c' [= <-].
    + now destruct calls.
  - exists n. destruct calls as [|calls].
    + cbn. split; [reflexivity|]. split; [discriminate|reflexivity].
    + cbn [PrismaClientSingleton.getInstances PrismaClientSingleton.getInstance
           PrismaClientSingleton.instance PrismaClientSingleton.constructed].
      rewrite getInstances_set. cbn. split; [reflexivity|].
      split; [discriminate|reflexivity].
Qed.

(** ** Reading back what a handler wrote *)

Section ReadYourWrites.
Variable scrypt : string -> string -> nat -> list byte.
Variable pepper : string.

Lemma register_Ok_found (rnd : list byte) (body : CreateUserData.t)
    (d d' : MemStore.db) (res : response) :
  UserController.register scrypt pepper MemStore.prisma rnd body d = (Ok res, d') ->
  exists user,
    res = Response 201 (Json (rest_without_password user))
    /\ MemStore.find_user (ByEmail (CreateUserData.email body)) d' = Some user.
Proof.
  intros H. unfold UserController.register in H. invert_binds.
  match goal with H : (if ?x is Some _ then _ else _) _ = _ |- _ => destruct x end;
    invert_binds.
  match goal with H : UserModel.findByEmail _ _ _ = _ |- _ =>
    cbn in H; unfold MemStore.user_findUnique in H; injection H as _ <- end.
  match goal with H : UserModel.create _ _ _ _ _ _ = _ |- _ =>
    apply try_catch_Ok in H; [|intros; apply user_catch_clause_throws];
    apply store_create_Ok in H as (Hu & Htaken & ->) end.
  eexists. split; [reflexivity|].
  apply taken_column_None in Htaken as (_ & Hemail & _).
  rewrite find_user_unfold. cbn [MemStore.users MemStore.tick MemStore.with_users].
  apply find_app_last.
  - apply find_existsb_false. rewrite Hu in Hemail. exact Hemail.
  - rewrite Hu. cbn. apply String.eqb_refl.
Qed.

(** X20.  A second registration with the email of one that succeeded is
    refused with 'Email already in use', whatever else it carries, and
    changes nothing. *)
Theorem register_twice_refused
    (rnd rnd' : list byte) (body body' : CreateUserData.t)
    (d d' : MemStore.db) (res : response) :
  UserController.register scrypt pepper MemStore.prisma rnd body d = (Ok res, d') ->
  CreateUserData.email body' = CreateUserData.email body ->
  UserController.register scrypt pepper MemStore.prisma rnd' body' d'
  = (Throw (BadRequestError "Email already in use"), d').
Proof.
  intros H Hemail. apply register_Ok_found in H as (user & _ & Hfound).
  apply register_email_taken with (user := user). cbn.
  unfold MemStore.user_findUnique. now rewrite Hemail, Hfound.
Qed.

(** X21.  What the update handler answers is what get by id answers next
    for the id the row then has: the id of the request, or the one the
    body named.  When the body named another id, get by id of the
    request's id is then [NotFound]. *)
Theorem update_then_get
    (rnd : list byte) (id : string) (updateData : UserUpdateInput.t)
    (d d' : MemStore.db) (res : response) :
  UserController.update scrypt pepper MemStore.prisma rnd id updateData d = (Ok res, d') ->
  UserController.getById MemStore.prisma
    (default id (UserUpdateInput.id updateData)) d' = (Ok res, d')
  /\ (forall id', UserUpdateInput.id updateData = Some id' -> id' <> id ->
        UserController.getById MemStore.prisma id d'
        = (Throw (NotFound "User not found"), d')).
Proof.
  intros H. unfold UserController.update in H. invert_binds.
  match goal with H : UserModel.update _ _ _ _ _ _ _ = _ |- _ =>
    apply try_catch_Ok in H; [|intros; apply user_catch_clause_throws];
    pose proof (store_update_state _ _ _ _ _ H) as Hd';
    apply store_update_Ok in H as (old & _ & Hold & Hu & Hfound) end.
  match type of Hu with ?u = _ =>
    assert (User.id u = default id (UserUpdateInput.id updateData)) as Hid
  end.
  { rewrite Hu. cbn [MemStore.apply_update User.id].
    unfold UserModel.updateData. destruct (UserModel.truthy _); cbn; now rewrite Hold. }
  split.
  - unfold UserController.getById, UserModel.findById, bind. cbn.
    unfold MemStore.user_findUnique. now rewrite <- Hid, Hfound.
  - intros id' Hsome Hne. rewrite Hsome in Hid. cbn in Hid.
    unfold UserController.getById, UserModel.findById, bind. cbn.
    unfold MemStore.user_findUnique. rewrite Hd', find_user_unfold.
    cbn [MemStore.users MemStore.with_users].
    rewrite find_replaced_gone; [reflexivity|]. congruence.
Qed.
End ReadYourWrites.

Lemma register_twice_refused_witness :
  exists res d',
    UserController.register sample_kdf "pepper" MemStore.prisma sample_rnd
      (CreateUserData.Build "c@d.com" "C" "3" "password3") sample_db = (Ok res, d')
    /\ UserController.register sample_kdf "pepper" MemStore.prisma sample_rnd
         (CreateUserData.Build "c@d.com" "D" "4" "password4") d'
       = (Throw (BadRequestError "Email already in use"), d').
Proof.
  eexists _, _. split; [reflexivity|].
  exact (register_twice_refused sample_kdf "pepper" sample_rnd sample_rnd
           (CreateUserData.Build "c@d.com" "C" "3" "password3")
           (CreateUserData.Build "c@d.com" "D" "4" "password4")
           sample_db _ _ eq_refl eq_refl).
Defined.

Lemma update_then_get_witness :
  exists res d',
    UserController.update sample_kdf "pepper" MemStore.prisma sample_rnd "id-0"
      (UserUpdateInput.Make (Some "id-7") None (Some "Alice") None None None) sample_db
    = (Ok res, d')
    /\ UserController.getById MemStore.prisma "id-7" d' = (Ok res, d')
    /\ UserController.getById MemStore.prisma "id-0" d'
       = (Throw (NotFound "User not found"), d').
Proof.
  eexists _, _. split; [reflexivity|].
  pose proof (update_then_get sample_kdf "pepper" sample_rnd "id-0"
                (UserUpdateInput.Make (Some "id-7") None (Some "Alice") None None None)
                sample_db _ _ eq_refl) as [H1 H2].
  split; [exact H1|]. apply (H2 "id-7"); [reflexivity|discriminate].
Defined.
